(** * ShowPattern (helper.py): rendering the pattern of a sparse matrix

    A shallow embedding of [ShowPattern] from [helper.py] together with the
    properties of its rendering that the specification states.

    The function reads the coordinate triplets of a sparse matrix, replaces
    every value by its magnitude (optionally snapped to [1.0] above a
    threshold), takes the largest of them as the upper end of the colour
    scale, rebuilds a dense array with [scipy.sparse.csr_matrix] and hands it
    to [matplotlib].

    Values are IEEE-754 binary64 numbers, modelled by [spec_float] of the
    standard library (signed zeros, infinities, NaN, finite numbers as
    mantissa and exponent).  Row and column indices are Python [int]s,
    modelled by [Z]; the declared dimensions are sizes, modelled by [nat].
    Exceptions are modelled by an error monad; the calls made to the plotting
    library are recorded as the trace the function returns. *)

From Stdlib Require Import ZArith QArith Bool String Lia.
From Stdlib Require Import Floats.SpecFloat.
From stdpp Require Import base list.

Local Open Scope Z_scope.

(** ** Python floats *)

Module F64.

Definition prec : Z := 53.
Definition emax : Z := 1024.

Definition float : Type := spec_float.

(** [0.0], [1.0] and [-1.0]; the mantissa of a normal number has 53 bits. *)
Definition zero : float := S754_zero false.
Definition one : float := S754_finite false 4503599627370496 (-52).
Definition minus_one : float := S754_finite true 4503599627370496 (-52).
Definition nan : float := S754_nan.

(** [abs(x)] *)
Definition abs (x : float) : float := SFabs x.

(** [x > y], [x <= y] and [x + y] *)
Definition gtb (x y : float) : bool := SFltb y x.
Definition leb (x y : float) : bool := SFleb x y.
Definition add (x y : float) : float := SFadd prec emax x y.

Definition is_nan (x : float) : bool :=
  match x with S754_nan => true | _ => false end.

(** The float nearest to an integer (exact below [2^53]). *)
Definition of_Z (z : Z) : float := binary_normalize prec emax z 0 false.

(** The float nearest to [m * 2^e]. *)
Definition of_dyadic (m e : Z) : float := binary_normalize prec emax m e false.

End F64.

Abbreviation float := F64.float.

(** ** Exceptions *)

Inductive exn : Type :=
| IndexError            (* list index out of range *)
| MaxEmptySequence      (* ValueError: max() arg is an empty sequence *)
| LengthMismatch        (* ValueError: row, column, and data array must all be the same length *)
| RowIndexExceeds       (* ValueError: row index exceeds matrix dimensions *)
| ColumnIndexExceeds    (* ValueError: column index exceeds matrix dimensions *)
| NegativeRowIndex      (* ValueError: negative row index found *)
| NegativeColumnIndex   (* ValueError: negative column index found *)
| ZeroDivisionError.    (* division by zero *)

Inductive result (T : Type) : Type :=
| Ok (x : T)
| Raise (e : exn).

Arguments Ok {T} x.
Arguments Raise {T} e.

#[global] Instance result_ret : MRet result := fun _ x => Ok x.
#[global] Instance result_bind : MBind result := fun _ _ f m =>
  match m with
  | Ok x => f x
  | Raise e => Raise e
  end.

(** An exception raised while the dense array is built because an index lies
    beyond the declared shape. *)
Definition out_of_bounds (e : exn) : bool :=
  match e with
  | RowIndexExceeds | ColumnIndexExceeds => true
  | _ => false
  end.

(** ** Python sequences *)

(** [l[i]] and [l[i] = x] for [0 <= i]; both raise beyond the end. *)
Definition getitem {T} (l : list T) (i : nat) : result T :=
  match l !! i with
  | Some x => Ok x
  | None => Raise IndexError
  end.

Definition setitem {T} (l : list T) (i : nat) (x : T) : result (list T) :=
  if decide (i < length l)%nat then Ok (<[i := x]> l) else Raise IndexError.

(** [zip(l1, l2, l3)] stops with the shortest sequence. *)
Fixpoint zip3 {T1 T2 T3} (l1 : list T1) (l2 : list T2) (l3 : list T3)
  : list (T1 * T2 * T3) :=
  match l1, l2, l3 with
  | x1 :: l1, x2 :: l2, x3 :: l3 => (x1, x2, x3) :: zip3 l1 l2 l3
  | _, _, _ => []
  end.

(** [enumerate(l)], counting from [k]. *)
Fixpoint enumerate_from {T} (k : nat) (l : list T) : list (nat * T) :=
  match l with
  | [] => []
  | x :: l => (k, x) :: enumerate_from (S k) l
  end.

Definition enumerate {T} (l : list T) : list (nat * T) := enumerate_from 0 l.

(** A [for] loop whose body updates a variable and may raise. *)
Fixpoint for_each {T S} (body : S -> T -> result S) (its : list T) (s : S)
  : result S :=
  match its with
  | [] => Ok s
  | it :: its => s' ← body s it; for_each body its s'
  end.

(** [max(l)]: the first item, replaced by each later item that compares
    greater than the current candidate. *)
Definition max_step (m y : float) : float := if F64.gtb y m then y else m.

Definition py_max (l : list float) : result float :=
  match l with
  | [] => Raise MaxEmptySequence
  | x :: l => Ok (fold_left max_step l x)
  end.

(** [a / b] on integers: the quotient as a number, in lowest terms. *)
Definition py_truediv (a b : Z) : result Q :=
  if (b =? 0)%Z then Raise ZeroDivisionError
  else Ok (Qred (inject_Z a / inject_Z b)).

(** ** The input: a sparse matrix and its coordinate view *)

Record SparseMatrix : Type := {
  entries : list (Z * Z * float);   (* the stored entries, in storage order *)
  height : nat;
  width : nat
}.

Definition rows_of (A : SparseMatrix) : list Z := (fun e => e.1.1) <$> entries A.
Definition cols_of (A : SparseMatrix) : list Z := (fun e => e.1.2) <$> entries A.
Definition vals_of (A : SparseMatrix) : list float := (fun e => e.2) <$> entries A.

(** [A.COO()]: the row indices, column indices and values as three parallel
    sequences. *)
Definition COO (A : SparseMatrix) : list Z * list Z * list float :=
  (rows_of A, cols_of A, vals_of A).

(** ** scipy.sparse: building and densifying a matrix from triplets *)

(** Modelled from the spec: [scipy.sparse] is a library the function calls,
    its code is not among the sources.  The specification (section 4.1,
    step 4 and the error conditions) gives its part: a dense array of shape
    [(height, width)] is built, each transformed value is placed at its
    [(row, col)] position, positions without a stored entry are 0, entries
    for one position are not deduplicated, and an index outside the declared
    dimensions is an out-of-bounds failure of the construction.  The model
    below is that, in the form the library has it: the triplets are checked
    when the matrix is built, and the values of one position are added
    up. *)
Record sp_matrix : Type := {
  sp_shape : nat * nat;
  sp_row : list Z;
  sp_col : list Z;
  sp_data : list float
}.

Definition np_max (l : list Z) : Z :=
  match l with
  | [] => 0
  | x :: l => fold_left Z.max l x
  end.

Definition np_min (l : list Z) : Z :=
  match l with
  | [] => 0
  | x :: l => fold_left Z.min l x
  end.

(** Modelled from the spec: [sp.csr_matrix((data, (row, col)), shape=shape)],
    the construction that fails on an index outside the declared dimensions.
    The three arrays must have one length; when there is at least one entry
    the largest index of each axis must lie below the shape and the smallest
    must not be negative. *)
Definition csr_matrix (data : list float) (row col : list Z) (shape : nat * nat)
  : result sp_matrix :=
  if negb ((length row =? length data)%nat && (length col =? length data)%nat)
  then Raise LengthMismatch
  else if (0 <? length data)%nat then
    if Z.of_nat shape.1 <=? np_max row then Raise RowIndexExceeds
    else if Z.of_nat shape.2 <=? np_max col then Raise ColumnIndexExceeds
    else if np_min row <? 0 then Raise NegativeRowIndex
    else if np_min col <? 0 then Raise NegativeColumnIndex
    else Ok {| sp_shape := shape; sp_row := row; sp_col := col; sp_data := data |}
  else Ok {| sp_shape := shape; sp_row := row; sp_col := col; sp_data := data |}.

(** Modelled from the spec: the values that the library holds for position
    [(i, j)].  The specification says that entries for one position are not
    deduplicated; they are listed here in the order of the input. *)
Definition entries_at (M : sp_matrix) (i j : nat) : list float :=
  omap (fun e : Z * Z * float =>
          if (e.1.1 =? Z.of_nat i) && (e.1.2 =? Z.of_nat j) then Some e.2 else None)
       (zip3 (sp_row M) (sp_col M) (sp_data M)).

(** Modelled from the spec: what the library makes of several entries for
    one position.  The specification says only that they are not
    deduplicated; the library adds them up, the first value and then the
    later ones in turn.  The order in which it takes them is its own (it
    sorts the entries of a row without promising to keep equal columns in
    place); the model takes the order of the input, and what is proved below
    about a sum is stated for some order of the values, so that it does not
    depend on this choice. *)
Definition sum_duplicates (l : list float) : option float :=
  match l with
  | [] => None
  | x :: l => Some (fold_left F64.add l x)
  end.

(** Modelled from the spec: one cell of the dense array.  Positions with no
    stored entry are 0; the array starts as zeros and the sum stored for the
    position, when there is one, is added to it. *)
Definition dense_cell (l : list float) : float :=
  match sum_duplicates l with
  | None => F64.zero
  | Some x => F64.add F64.zero x
  end.

(** Modelled from the spec: the cell at row [i] and column [j]. *)
Definition cell (M : sp_matrix) (i j : nat) : float :=
  dense_cell (entries_at M i j).

(** Modelled from the spec: [M.todense()], the dense array of the declared
    shape, a list of [shape.1] rows of [shape.2] cells. *)
Definition todense (M : sp_matrix) : list (list float) :=
  (fun i => (fun j => cell M i j) <$> seq 0 (sp_shape M).2)
    <$> seq 0 (sp_shape M).1.

(** ** matplotlib: the calls made *)

Record imshow_args : Type := {
  im_data : list (list float);
  im_interpolation : string;
  im_cmap : string;
  im_vmin : Z;
  im_vmax : float
}.

Inductive plt_call : Type :=
| plt_figure (figsize : Q * Q)
| plt_imshow (args : imshow_args)
| plt_show.

(** ** ShowPattern *)

(** The defaults of the signature
    [def ShowPattern(A, precision=-1, binarize=False)].  The threshold is
    compared with floats only; the integer [-1] is the float [-1.0] there. *)
Definition precision_default : float := F64.minus_one.
Definition binarize_default : bool := false.

Section ShowPattern.

Variable precision : float.
Variable binarize : bool.

(** Lines 12-14, the body of the loop at index [i] (the row, column and
    value that [zip] yields are not used by the body):
<<
      vals_all[i] = abs(vals_all[i])
      if binarize and vals_all[i] > precision:
          vals_all[i] = 1.0
>> *)
Definition loop_body (vals_all : list float) (it : nat * (Z * Z * float))
  : result (list float) :=
  let '(i, (r, c, v)) := it in
  x ← getitem vals_all i;
  vals_all ← setitem vals_all i (F64.abs x);
  if binarize then
    y ← getitem vals_all i;
    if F64.gtb y precision then setitem vals_all i F64.one
    else Ok vals_all
  else Ok vals_all.

(** Lines 11-14: [vals_all] after the loop over
    [enumerate(zip(rows_all, cols_all, vals_all))]. *)
Definition transform_loop (rows_all cols_all : list Z) (vals_all : list float)
  : result (list float) :=
  for_each loop_body (enumerate (zip3 rows_all cols_all vals_all)) vals_all.

(** Lines 7-14: [vals_all] when the loop has ended. *)
Definition transformed_values (A : SparseMatrix) : result (list float) :=
  let '(rows_all, cols_all, vals_all) := COO A in
  transform_loop rows_all cols_all vals_all.

(** Lines 7-31: the local variables [vals_all], [minval] and [maxval] once
    line 31 has run. *)
Definition color_scale (A : SparseMatrix) : result (list float * Z * float) :=
  vals_all ← transformed_values A;
  let minval := 0 in
  maxval ← py_max vals_all;
  Ok (vals_all, minval, maxval).

(** The whole function: the calls made to the plotting library, or the
    exception that ends the call. *)
Definition ShowPattern (A : SparseMatrix) : result (list plt_call) :=
  let '(rows_all, cols_all, vals_all) := COO A in
  vals_all ← transform_loop rows_all cols_all vals_all;
  let minval := 0 in
  maxval ← py_max vals_all;
  A_all ← csr_matrix vals_all rows_all cols_all (height A, width A);
  figheight ← py_truediv (4 * Z.of_nat (width A)) (Z.of_nat (width A));
  Ok [ plt_figure (4%Q, figheight);
       plt_imshow {| im_data := todense A_all;
                     im_interpolation := "none";
                     im_cmap := "jet";
                     im_vmin := minval;
                     im_vmax := maxval |};
       plt_show ].

End ShowPattern.

(** The value the loop leaves at an index, written as a function of the value
    it found there (steps 1 and 2 of the specification). *)
Definition transformed (precision : float) (binarize : bool) (v : float) : float :=
  if binarize && F64.gtb (F64.abs v) precision then F64.one else F64.abs v.

(** The values of the entries stored for position [(i, j)], in storage
    order. *)
Definition stored_at (A : SparseMatrix) (i j : nat) : list float :=
  omap (fun e : Z * Z * float =>
          if (e.1.1 =? Z.of_nat i) && (e.1.2 =? Z.of_nat j) then Some e.2 else None)
       (entries A).

(** Cell [(i, j)] of an array given as a list of rows. *)
Definition at_position (D : list (list float)) (i j : nat) : option float :=
  row ← D !! i; row !! j.

(** ** Sample matrices *)

Module Samples.

Definition half : float := F64.of_dyadic 1 (-1).
Definition two : float := F64.of_Z 2.
Definition three : float := F64.of_Z 3.
Definition five : float := F64.of_Z 5.
Definition minus_three : float := F64.of_Z (-3).

(** Entries [(0,0,-3.0)] and [(1,1,2.0)] in a 2 x 2 matrix. *)
Definition diagonal : SparseMatrix :=
  {| entries := [(0, 0, minus_three); (1, 1, two)]; height := 2; width := 2 |}.

(** The single entry [(0,0,0.5)] in a 1 x 1 matrix. *)
Definition single_half : SparseMatrix :=
  {| entries := [(0, 0, half)]; height := 1; width := 1 |}.

(** Two entries for position [(0,1)] of a 1 x 2 matrix. *)
Definition duplicated : SparseMatrix :=
  {| entries := [(0, 1, two); (0, 1, minus_three)]; height := 1; width := 2 |}.

(** A stored NaN. *)
Definition with_nan : SparseMatrix :=
  {| entries := [(0, 0, F64.nan)]; height := 1; width := 1 |}.

(** A column index beyond the declared width, in a 3 x 2 matrix. *)
Definition beyond_width : SparseMatrix :=
  {| entries := [(0, 0, two); (1, 2, half)]; height := 3; width := 2 |}.

End Samples.

(** The positions of the stored entries, in storage order. *)
Definition positions (A : SparseMatrix) : list (Z * Z) :=
  (fun e => e.1) <$> entries A.

(** Every index lies within the declared shape. *)
Definition within_shape (A : SparseMatrix) : Prop :=
  Forall (fun e => 0 <= e.1.1 < Z.of_nat (height A)
                   /\ 0 <= e.1.2 < Z.of_nat (width A)) (entries A).

(** ** More sample matrices *)

Module MoreSamples.

(** [Samples.diagonal] with the sign of both values changed. *)
Definition diagonal_negated : SparseMatrix :=
  {| entries := [(0, 0, Samples.three); (1, 1, SFopp Samples.two)];
     height := 2; width := 2 |}.

(** [Samples.diagonal] with its entries stored in the other order. *)
Definition diagonal_swapped : SparseMatrix :=
  {| entries := [(1, 1, Samples.two); (0, 0, Samples.minus_three)];
     height := 2; width := 2 |}.

(** Three entries at three positions of a 2 x 3 matrix. *)
Definition scattered : SparseMatrix :=
  {| entries := [(0, 2, Samples.half); (1, 0, Samples.minus_three);
                 (0, 0, Samples.two)];
     height := 2; width := 3 |}.

(** A stored NaN ahead of the entry [(0,1,-3.0)] in a 1 x 2 matrix. *)
Definition nan_first : SparseMatrix :=
  {| entries := [(0, 0, F64.nan); (0, 1, Samples.minus_three)];
     height := 1; width := 2 |}.

(** Three entries for position [(0,0)] of a 1 x 1 matrix. *)
Definition tripled : SparseMatrix :=
  {| entries := [(0, 0, Samples.two); (0, 0, Samples.minus_three);
                 (0, 0, Samples.half)];
     height := 1; width := 1 |}.

End MoreSamples.

(** * Properties *)

(** ** The order of binary64 numbers *)

Module F64Facts.

(** Swapping the operands of a comparison reverses its outcome; with a NaN
    there is none either way. *)
Lemma SFcompare_antisym (x y : float) :
  SFcompare y x = CompOpp <$> SFcompare x y.
Proof.
  destruct x as [sx|sx| |sx mx ex], y as [sy|sy| |sy my ey]; simpl;
    try reflexivity;
    try (destruct sx; reflexivity); try (destruct sy; reflexivity);
    try (destruct sx, sy; reflexivity).
  change (Pos.compare_cont Eq my mx) with (my ?= mx)%positive.
  change (Pos.compare_cont Eq mx my) with (mx ?= my)%positive.
  rewrite (Z.compare_antisym ex ey), (Pos.compare_antisym mx my).
  destruct sx, sy; simpl; try reflexivity;
    destruct (ex ?= ey); simpl; try reflexivity;
    destruct (mx ?= my)%positive; reflexivity.
Qed.

Lemma SFcompare_is_Some (x y : float) :
  F64.is_nan x = false -> F64.is_nan y = false -> is_Some (SFcompare x y).
Proof. destruct x, y; simpl; intros; try discriminate; eexists; reflexivity. Qed.

Lemma SFcompare_refl (x : float) :
  F64.is_nan x = false -> SFcompare x x = Some Eq.
Proof.
  destruct x as [s|s| |s m e]; simpl; try discriminate; intros _.
  - reflexivity.
  - destruct s; reflexivity.
  - change (Pos.compare_cont Eq m m) with (m ?= m)%positive.
    rewrite Z.compare_refl, Pos.compare_refl. destruct s; reflexivity.
Qed.

(** Less-than is transitive, also through equality on either side. *)
Lemma SFcompare_Lt_trans (x y z : float) (c : comparison) :
  SFcompare x y = Some c -> c <> Gt -> SFcompare y z = Some Lt ->
  SFcompare x z = Some Lt.
Proof.
  destruct x as [sx|sx| |sx mx ex], y as [sy|sy| |sy my ey],
           z as [sz|sz| |sz mz ez]; simpl; intros Hxy Hc Hyz;
    try discriminate;
    repeat match goal with s : bool |- _ => destruct s end;
    simpl in *; try discriminate; try reflexivity;
    try (injection Hxy as <-; congruence);
    change (Pos.compare_cont Eq mx my) with (mx ?= my)%positive in *;
    change (Pos.compare_cont Eq my mz) with (my ?= mz)%positive in *;
    change (Pos.compare_cont Eq mx mz) with (mx ?= mz)%positive in *;
    f_equal; injection Hxy as Hxy; injection Hyz as Hyz;
    destruct (Z.compare_spec ex ey), (Z.compare_spec ey ez),
             (Z.compare_spec ex ez); subst; try lia; try discriminate;
      try reflexivity; try congruence;
    destruct (Pos.compare_spec mx my), (Pos.compare_spec my mz),
             (Pos.compare_spec mx mz); subst; simpl in *;
      try lia; try discriminate; try reflexivity; congruence.
Qed.

(** [x <= y] excludes [x > y]. *)
Lemma leb_not_gtb (x y : float) : F64.leb x y = true -> F64.gtb x y = false.
Proof.
  unfold F64.leb, F64.gtb, SFleb, SFltb. rewrite (SFcompare_antisym x y).
  destruct (SFcompare x y) as [[]|]; simpl; congruence.
Qed.

(** Two numbers are comparable: when [x > y] fails, [x <= y] holds. *)
Lemma not_gtb_leb (x y : float) :
  F64.is_nan x = false -> F64.is_nan y = false ->
  F64.gtb x y = false -> F64.leb x y = true.
Proof.
  intros Hx Hy. unfold F64.leb, F64.gtb, SFleb, SFltb.
  rewrite (SFcompare_antisym x y).
  destruct (SFcompare_is_Some x y Hx Hy) as [c ->].
  destruct c; simpl; congruence.
Qed.

Lemma gtb_irrefl (x : float) : F64.gtb x x = false.
Proof.
  unfold F64.gtb, SFltb. destruct (F64.is_nan x) eqn:Hx.
  - destruct x; try discriminate. reflexivity.
  - rewrite SFcompare_refl by assumption. reflexivity.
Qed.

Lemma gtb_trans (x y z : float) :
  F64.gtb x y = true -> F64.gtb y z = true -> F64.gtb x z = true.
Proof.
  unfold F64.gtb, SFltb. intros Hxy Hyz.
  destruct (SFcompare z y) as [[]|] eqn:Hzy; try discriminate.
  destruct (SFcompare y x) as [[]|] eqn:Hyx; try discriminate.
  rewrite (SFcompare_Lt_trans z y x Lt Hzy); [reflexivity|discriminate|assumption].
Qed.

(** A magnitude is never NaN unless the number is, and is never below zero. *)
Lemma is_nan_abs (x : float) : F64.is_nan (F64.abs x) = F64.is_nan x.
Proof. destruct x; reflexivity. Qed.

Lemma abs_nonneg (x : float) :
  F64.is_nan x = false -> F64.leb F64.zero (F64.abs x) = true.
Proof. destruct x; simpl; intros; try discriminate; reflexivity. Qed.

Lemma abs_gtb_minus_one (x : float) :
  F64.is_nan x = false -> F64.gtb (F64.abs x) F64.minus_one = true.
Proof. destruct x; simpl; intros; try discriminate; reflexivity. Qed.

Lemma nan_gtb (y : float) : F64.gtb F64.nan y = false.
Proof. destruct y; reflexivity. Qed.

(** Adding a magnitude, or [1.0], to [0.0] gives it back. *)
Lemma add_zero_abs (x : float) : F64.add F64.zero (F64.abs x) = F64.abs x.
Proof. destruct x; reflexivity. Qed.

Lemma add_zero_one : F64.add F64.zero F64.one = F64.one.
Proof. reflexivity. Qed.

End F64Facts.

(** ** Python's [max] *)

Section PyMax.

Lemma fold_max_elem (l : list float) (x : float) :
  fold_left max_step l x ∈ x :: l.
Proof.
  revert x. induction l as [|y l IH]; intros x; simpl.
  - left.
  - specialize (IH (max_step x y)). unfold max_step in *.
    rewrite !elem_of_cons in *. destruct (F64.gtb y x); tauto.
Qed.

Lemma max_step_keeps (x m y : float) :
  F64.gtb x m = false -> F64.gtb x (max_step m y) = false.
Proof.
  intros Hxm. unfold max_step. destruct (F64.gtb y m) eqn:Hym; [|assumption].
  destruct (F64.gtb x y) eqn:Hxy; [|reflexivity].
  rewrite (F64Facts.gtb_trans x y m Hxy Hym) in Hxm. discriminate.
Qed.

Lemma max_step_new (m y : float) : F64.gtb y (max_step m y) = false.
Proof.
  unfold max_step. destruct (F64.gtb y m) eqn:Hym; [|assumption].
  apply F64Facts.gtb_irrefl.
Qed.

Lemma fold_max_upper (l : list float) (m : float) (seen : list float) :
  Forall (fun x => F64.gtb x m = false) seen ->
  Forall (fun x => F64.gtb x (fold_left max_step l m) = false) (seen ++ l).
Proof.
  revert m seen. induction l as [|y l IH]; intros m seen Hseen; simpl.
  - rewrite app_nil_r. assumption.
  - replace (seen ++ y :: l) with ((seen ++ [y]) ++ l)
      by (rewrite <- app_assoc; reflexivity).
    apply IH. apply Forall_app. split.
    + eapply Forall_impl; [exact Hseen|]. intros x Hx. simpl.
      apply max_step_keeps, Hx.
    + constructor; [apply max_step_new|constructor].
Qed.

(** [max] of a sequence that is not empty returns one of its items, and no
    item compares greater than it. *)
Lemma py_max_spec (l : list float) :
  l <> [] ->
  exists m, py_max l = Ok m /\ m ∈ l /\ Forall (fun x => F64.gtb x m = false) l.
Proof.
  destruct l as [|x l]; [congruence|]. intros _.
  exists (fold_left max_step l x). split; [reflexivity|]. split.
  - apply fold_max_elem.
  - apply (fold_max_upper l x [x]). constructor; [|constructor].
    apply F64Facts.gtb_irrefl.
Qed.

(** When no item is NaN, every item is at most the result. *)
Lemma py_max_greatest (l : list float) (m : float) :
  py_max l = Ok m -> Forall (fun x => F64.is_nan x = false) l ->
  Forall (fun x => F64.leb x m = true) l.
Proof.
  intros Hm Hnan. destruct (py_max_spec l) as (m' & Hm' & Hin & Hup).
  { intros ->. discriminate. }
  rewrite Hm in Hm'. injection Hm' as <-.
  rewrite Forall_forall in Hnan, Hup |- *. intros x Hx.
  apply F64Facts.not_gtb_leb; auto.
Qed.

Lemma py_max_nil_iff (l : list float) :
  py_max l = Raise MaxEmptySequence <-> l = [].
Proof. destruct l; simpl; split; congruence. Qed.

End PyMax.

(** ** The loop of lines 11-14 *)

Section Loop.

Variable precision : float.
Variable binarize : bool.

Lemma setitem_middle {T} (done todo : list T) (x y : T) :
  setitem (done ++ x :: todo) (length done) y = Ok (done ++ y :: todo).
Proof.
  unfold setitem. rewrite decide_True.
  - rewrite insert_app_r_alt by lia. rewrite Nat.sub_diag. reflexivity.
  - rewrite length_app. simpl. lia.
Qed.

Lemma getitem_middle {T} (done todo : list T) (x : T) :
  getitem (done ++ x :: todo) (length done) = Ok x.
Proof. unfold getitem. rewrite list_lookup_middle by reflexivity. reflexivity. Qed.

(** One pass of the body at index [length done] rewrites that item only. *)
Lemma loop_body_middle (done todo : list float) (x : float) (e : Z * Z * float) :
  loop_body precision binarize (done ++ x :: todo) (length done, e)
  = Ok (done ++ transformed precision binarize x :: todo).
Proof.
  destruct e as [[r c] v]. unfold loop_body, transformed.
  rewrite getitem_middle. simpl. rewrite setitem_middle. simpl.
  destruct binarize; simpl; [|reflexivity].
  rewrite getitem_middle. simpl.
  destruct (F64.gtb (F64.abs x) precision); [|reflexivity].
  apply setitem_middle.
Qed.

(** The loop, started at index [length done] with as many items left as the
    iterator yields. *)
Lemma for_each_loop_body (its : list (Z * Z * float)) :
  forall (done todo : list float),
    length its = length todo ->
    for_each (loop_body precision binarize)
             (enumerate_from (length done) its) (done ++ todo)
    = Ok (done ++ (transformed precision binarize <$> todo)).
Proof.
  induction its as [|e its IH]; intros done [|x todo] Hlen;
    simpl in Hlen; try discriminate.
  - reflexivity.
  - cbn [enumerate_from for_each].
    rewrite loop_body_middle. cbn [mbind result_bind].
    specialize (IH (done ++ [transformed precision binarize x]) todo).
    rewrite length_app, Nat.add_1_r, <- !app_assoc in IH. simpl in IH.
    rewrite IH by congruence. reflexivity.
Qed.

End Loop.

(** ** The steps of [ShowPattern] in closed form *)

Section Steps.

Variable precision : float.
Variable binarize : bool.

Lemma length_zip3_COO (l : list (Z * Z * float)) (vals : list float) :
  length vals = length l ->
  length (zip3 ((fun e => e.1.1) <$> l) ((fun e => e.1.2) <$> l) vals) = length l.
Proof.
  revert vals. induction l as [|e l IH]; intros [|v vals] H;
    simpl in *; try discriminate; auto.
Qed.

(** The loop never raises and leaves the image of every value. *)
Lemma transformed_values_eq (A : SparseMatrix) :
  transformed_values precision binarize A
  = Ok (transformed precision binarize <$> vals_of A).
Proof.
  unfold transformed_values, COO, transform_loop, enumerate, rows_of, cols_of.
  set (vals := vals_of A).
  assert (Hlen : length vals = length (entries A)) by apply length_fmap.
  apply (for_each_loop_body precision binarize _ [] vals).
  rewrite length_zip3_COO; congruence.
Qed.

Lemma color_scale_eq (A : SparseMatrix) :
  color_scale precision binarize A
  = (maxval ← py_max (transformed precision binarize <$> vals_of A);
     Ok (transformed precision binarize <$> vals_of A, 0, maxval)).
Proof. unfold color_scale. rewrite transformed_values_eq. reflexivity. Qed.

Lemma ShowPattern_eq (A : SparseMatrix) :
  ShowPattern precision binarize A
  = ('(vals_all, minval, maxval) ← color_scale precision binarize A;
     A_all ← csr_matrix vals_all (rows_of A) (cols_of A) (height A, width A);
     figheight ← py_truediv (4 * Z.of_nat (width A)) (Z.of_nat (width A));
     Ok [ plt_figure (4%Q, figheight);
          plt_imshow {| im_data := todense A_all;
                        im_interpolation := "none";
                        im_cmap := "jet";
                        im_vmin := minval;
                        im_vmax := maxval |};
          plt_show ]).
Proof.
  rewrite color_scale_eq. unfold ShowPattern. cbn [COO].
  pose proof (transformed_values_eq A) as H.
  unfold transformed_values in H. cbn [COO] in H. rewrite H.
  cbn [mbind result_bind].
  destruct (py_max _); reflexivity.
Qed.

End Steps.

(** ** Integer true division *)

Lemma py_truediv_4 (w : Z) : w <> 0 -> py_truediv (4 * w) w = Ok 4%Q.
Proof.
  intros Hw. unfold py_truediv.
  destruct (Z.eqb_spec w 0) as [|_]; [contradiction|]. f_equal.
  change 4%Q with (Qred 4). apply Qred_complete.
  rewrite inject_Z_mult. field.
  intros H. apply Hw. unfold Qeq, inject_Z in H. simpl in H. lia.
Qed.

Lemma py_truediv_0 (a : Z) : py_truediv a 0 = Raise ZeroDivisionError.
Proof. reflexivity. Qed.

(** ** Building the sparse matrix *)

Section CsrMatrix.

Lemma fold_max_ge (l : list Z) (x h : Z) :
  h <= fold_left Z.max l x <-> h <= x \/ Exists (fun y => h <= y) l.
Proof.
  revert x. induction l as [|y l IH]; intros x; simpl.
  - rewrite Exists_nil. tauto.
  - rewrite IH, Exists_cons, Z.max_le_iff. tauto.
Qed.

Lemma fold_min_lt (l : list Z) (x h : Z) :
  fold_left Z.min l x < h <-> x < h \/ Exists (fun y => y < h) l.
Proof.
  revert x. induction l as [|y l IH]; intros x; simpl.
  - rewrite Exists_nil. tauto.
  - rewrite IH, Exists_cons, Z.min_lt_iff. tauto.
Qed.

Lemma np_max_ge (l : list Z) (h : Z) :
  l <> [] -> (h <= np_max l <-> Exists (fun y => h <= y) l).
Proof.
  destruct l as [|x l]; [congruence|]. intros _. simpl.
  rewrite fold_max_ge, Exists_cons. tauto.
Qed.

Lemma np_min_lt (l : list Z) (h : Z) :
  l <> [] -> (np_min l < h <-> Exists (fun y => y < h) l).
Proof.
  destruct l as [|x l]; [congruence|]. intros _. simpl.
  rewrite fold_min_lt, Exists_cons. tauto.
Qed.

Lemma length_nonempty {T U} (l : list T) (k : list U) :
  length l = length k -> k <> [] -> l <> [].
Proof. destruct l, k; simpl; congruence. Qed.

(** What a successful construction says about its arguments. *)
Lemma csr_matrix_Ok (data : list float) (row col : list Z) (shape : nat * nat)
      (M : sp_matrix) :
  csr_matrix data row col shape = Ok M ->
  M = {| sp_shape := shape; sp_row := row; sp_col := col; sp_data := data |}
  /\ length row = length data /\ length col = length data
  /\ Forall (fun r => 0 <= r < Z.of_nat shape.1) row
  /\ Forall (fun c => 0 <= c < Z.of_nat shape.2) col.
Proof.
  unfold csr_matrix.
  destruct (Nat.eqb_spec (length row) (length data)) as [Hr|]; [|discriminate].
  destruct (Nat.eqb_spec (length col) (length data)) as [Hc|]; [|discriminate].
  cbn [andb negb].
  destruct (Nat.ltb_spec 0 (length data)) as [Hpos|Hzero].
  - assert (Hd : data <> []) by (intros ->; simpl in Hpos; lia).
    pose proof (length_nonempty row data Hr Hd) as Hrow.
    pose proof (length_nonempty col data Hc Hd) as Hcol.
    destruct (Z.leb_spec (Z.of_nat shape.1) (np_max row)) as [|H1]; [discriminate|].
    destruct (Z.leb_spec (Z.of_nat shape.2) (np_max col)) as [|H2]; [discriminate|].
    destruct (Z.ltb_spec (np_min row) 0) as [|H3]; [discriminate|].
    destruct (Z.ltb_spec (np_min col) 0) as [|H4]; [discriminate|].
    intros [= <-]. repeat split; try assumption.
    + apply Forall_forall. intros r Hin. split.
      * destruct (Z.lt_ge_cases r 0) as [Hneg|]; [|assumption].
        exfalso. apply (Z.lt_irrefl 0). eapply Z.le_lt_trans; [exact H3|].
        apply np_min_lt; [assumption|]. apply Exists_exists. eauto.
      * destruct (Z.lt_ge_cases r (Z.of_nat shape.1)) as [|Hge]; [assumption|].
        exfalso. apply (Z.lt_irrefl (np_max row)). eapply Z.lt_le_trans; [exact H1|].
        apply np_max_ge; [assumption|]. apply Exists_exists. eauto.
    + apply Forall_forall. intros c Hin. split.
      * destruct (Z.lt_ge_cases c 0) as [Hneg|]; [|assumption].
        exfalso. apply (Z.lt_irrefl 0). eapply Z.le_lt_trans; [exact H4|].
        apply np_min_lt; [assumption|]. apply Exists_exists. eauto.
      * destruct (Z.lt_ge_cases c (Z.of_nat shape.2)) as [|Hge]; [assumption|].
        exfalso. apply (Z.lt_irrefl (np_max col)). eapply Z.lt_le_trans; [exact H2|].
        apply np_max_ge; [assumption|]. apply Exists_exists. eauto.
  - assert (Hd : data = []) by (destruct data; [reflexivity|simpl in Hzero; lia]).
    subst data. destruct row; [|discriminate]. destruct col; [|discriminate].
    intros [= <-]. repeat split; constructor.
Qed.

(** Indices within the shape are accepted. *)
Lemma csr_matrix_in_range (data : list float) (row col : list Z) (shape : nat * nat) :
  length row = length data -> length col = length data ->
  Forall (fun r => 0 <= r < Z.of_nat shape.1) row ->
  Forall (fun c => 0 <= c < Z.of_nat shape.2) col ->
  csr_matrix data row col shape
  = Ok {| sp_shape := shape; sp_row := row; sp_col := col; sp_data := data |}.
Proof.
  intros Hr Hc Hrow Hcol. unfold csr_matrix.
  rewrite Hr, Hc, Nat.eqb_refl. cbn [andb negb].
  destruct (Nat.ltb_spec 0 (length data)) as [Hpos|Hzero]; [|reflexivity].
  assert (Hd : data <> []) by (intros ->; simpl in Hpos; lia).
  pose proof (length_nonempty row data Hr Hd) as Hrne.
  pose proof (length_nonempty col data Hc Hd) as Hcne.
  rewrite Forall_forall in Hrow, Hcol.
  destruct (Z.leb_spec (Z.of_nat shape.1) (np_max row)) as [H|_].
  { apply np_max_ge in H; [|assumption]. apply Exists_exists in H as (r & Hin & Hge).
    specialize (Hrow r Hin). lia. }
  destruct (Z.leb_spec (Z.of_nat shape.2) (np_max col)) as [H|_].
  { apply np_max_ge in H; [|assumption]. apply Exists_exists in H as (c & Hin & Hge).
    specialize (Hcol c Hin). lia. }
  destruct (Z.ltb_spec (np_min row) 0) as [H|_].
  { apply np_min_lt in H; [|assumption]. apply Exists_exists in H as (r & Hin & Hge).
    specialize (Hrow r Hin). lia. }
  destruct (Z.ltb_spec (np_min col) 0) as [H|_].
  { apply np_min_lt in H; [|assumption]. apply Exists_exists in H as (c & Hin & Hge).
    specialize (Hcol c Hin). lia. }
  reflexivity.
Qed.

(** An index at or beyond the shape is refused, whatever the other entries
    are. *)
Lemma csr_matrix_exceeds (data : list float) (row col : list Z) (shape : nat * nat) :
  length row = length data -> length col = length data ->
  Exists (fun r => Z.of_nat shape.1 <= r) row
  \/ Exists (fun c => Z.of_nat shape.2 <= c) col ->
  exists e, csr_matrix data row col shape = Raise e /\ out_of_bounds e = true.
Proof.
  intros Hr Hc Hex. unfold csr_matrix.
  rewrite Hr, Hc, Nat.eqb_refl. cbn [andb negb].
  assert (Hrne : row <> [] /\ col <> [] /\ data <> []).
  { destruct Hex as [H|H]; apply Exists_exists in H as (x & Hin & _);
      destruct row, col, data; simpl in *; try discriminate;
      try (apply elem_of_nil in Hin; contradiction); repeat split; discriminate. }
  destruct Hrne as (Hrne & Hcne & Hdne).
  destruct (Nat.ltb_spec 0 (length data)) as [_|Hzero];
    [|destruct data; [congruence|simpl in Hzero; lia]].
  destruct (Z.leb_spec (Z.of_nat shape.1) (np_max row)) as [_|H1].
  { exists RowIndexExceeds. split; reflexivity. }
  destruct (Z.leb_spec (Z.of_nat shape.2) (np_max col)) as [_|H2].
  { exists ColumnIndexExceeds. split; reflexivity. }
  exfalso. destruct Hex as [H|H].
  - apply (np_max_ge row _ Hrne) in H. lia.
  - apply (np_max_ge col _ Hcne) in H. lia.
Qed.

End CsrMatrix.

(** ** The dense array *)

Section Dense.

Lemma length_todense (M : sp_matrix) : length (todense M) = (sp_shape M).1.
Proof. unfold todense. rewrite length_fmap, length_seq. reflexivity. Qed.

Lemma todense_row_length (M : sp_matrix) :
  Forall (fun row => length row = (sp_shape M).2) (todense M).
Proof.
  unfold todense. apply Forall_fmap, Forall_forall. intros i _. simpl.
  rewrite length_fmap, length_seq. reflexivity.
Qed.

Lemma todense_at_position (M : sp_matrix) (i j : nat) :
  (i < (sp_shape M).1)%nat -> (j < (sp_shape M).2)%nat ->
  at_position (todense M) i j = Some (cell M i j).
Proof.
  intros Hi Hj. unfold at_position, todense.
  rewrite list_lookup_fmap.
  rewrite (proj2 (lookup_seq 0 (sp_shape M).1 i i)) by (split; [reflexivity|assumption]).
  simpl. rewrite list_lookup_fmap.
  rewrite (proj2 (lookup_seq 0 (sp_shape M).2 j j)) by (split; [reflexivity|assumption]).
  reflexivity.
Qed.

(** Zipping the coordinate view gives back the entries, each value mapped. *)
Lemma zip3_fmap (f : float -> float) (l : list (Z * Z * float)) :
  zip3 ((fun e => e.1.1) <$> l) ((fun e => e.1.2) <$> l) (f <$> ((fun e => e.2) <$> l))
  = (fun e => (e.1.1, e.1.2, f e.2)) <$> l.
Proof. induction l as [|e l IH]; simpl; [reflexivity|]. f_equal. exact IH. Qed.

(** The values that reach a position are the images of the values stored
    for it, none left out and none merged. *)
Lemma entries_at_transformed (A : SparseMatrix) (f : float -> float) (i j : nat) :
  entries_at {| sp_shape := (height A, width A); sp_row := rows_of A;
                sp_col := cols_of A; sp_data := f <$> vals_of A |} i j
  = f <$> stored_at A i j.
Proof.
  unfold entries_at, stored_at, rows_of, cols_of, vals_of. cbn [sp_row sp_col sp_data].
  rewrite zip3_fmap. induction (entries A) as [|e l IH]; [reflexivity|].
  cbn [fmap list_fmap omap list_omap]. simpl in IH |- *. rewrite IH.
  destruct ((e.1.1 =? Z.of_nat i) && (e.1.2 =? Z.of_nat j)); reflexivity.
Qed.

Lemma stored_at_nil (A : SparseMatrix) (i j : nat) :
  (forall r c v, (r, c, v) ∈ entries A -> ~ (r = Z.of_nat i /\ c = Z.of_nat j)) ->
  stored_at A i j = [].
Proof.
  unfold stored_at. induction (entries A) as [|[[r c] v] l IH]; intros H;
    [reflexivity|].
  cbn [omap list_omap]. simpl.
  destruct (Z.eqb_spec r (Z.of_nat i)) as [Hr|Hr];
    [destruct (Z.eqb_spec c (Z.of_nat j)) as [Hc|Hc]|]; simpl.
  - exfalso. apply (H r c v); [left|split; assumption].
  - apply IH. intros r' c' v' Hin. apply (H r' c' v'). right. exact Hin.
  - apply IH. intros r' c' v' Hin. apply (H r' c' v'). right. exact Hin.
Qed.

End Dense.

(** ** The whole call *)

Section Whole.

Variable precision : float.
Variable binarize : bool.

(** A call that completes has made exactly three plotting calls, and its
    arguments were accepted at every step before them. *)
Lemma ShowPattern_Ok_inv (A : SparseMatrix) (trace : list plt_call) :
  ShowPattern precision binarize A = Ok trace ->
  exists maxval,
    py_max (transformed precision binarize <$> vals_of A) = Ok maxval
    /\ csr_matrix (transformed precision binarize <$> vals_of A)
                  (rows_of A) (cols_of A) (height A, width A)
       = Ok {| sp_shape := (height A, width A); sp_row := rows_of A;
               sp_col := cols_of A;
               sp_data := transformed precision binarize <$> vals_of A |}
    /\ trace =
       [ plt_figure (4%Q, 4%Q);
         plt_imshow
           {| im_data :=
                todense {| sp_shape := (height A, width A); sp_row := rows_of A;
                           sp_col := cols_of A;
                           sp_data := transformed precision binarize <$> vals_of A |};
              im_interpolation := "none"; im_cmap := "jet";
              im_vmin := 0; im_vmax := maxval |};
         plt_show ].
Proof.
  rewrite ShowPattern_eq, color_scale_eq.
  destruct (py_max _) as [maxval|e] eqn:Hmax; [|discriminate].
  cbn [mbind result_bind].
  destruct (csr_matrix _ _ _ _) as [M|e] eqn:Hcsr; [|discriminate].
  cbn [mbind result_bind].
  destruct (csr_matrix_Ok _ _ _ _ _ Hcsr) as (-> & _ & _ & _ & Hcol).
  assert (Hw : Z.of_nat (width A) <> 0).
  { unfold cols_of, vals_of in *. destruct (entries A) as [|e l]; [discriminate|].
    apply Forall_cons in Hcol as [Hc _]. simpl in Hc. lia. }
  rewrite (py_truediv_4 _ Hw). cbn [mbind result_bind].
  intros [= <-]. exists maxval. repeat split; reflexivity.
Qed.

(** A matrix with at least one entry and every index within its shape is
    rendered: the call returns. *)
Lemma ShowPattern_succeeds (A : SparseMatrix) :
  entries A <> [] ->
  Forall (fun e => 0 <= e.1.1 < Z.of_nat (height A)
                   /\ 0 <= e.1.2 < Z.of_nat (width A)) (entries A) ->
  exists trace, ShowPattern precision binarize A = Ok trace.
Proof.
  intros Hne Hin. rewrite ShowPattern_eq, color_scale_eq.
  destruct (py_max_spec (transformed precision binarize <$> vals_of A))
    as (maxval & -> & _).
  { unfold vals_of. destruct (entries A); [congruence|discriminate]. }
  cbn [mbind result_bind].
  rewrite csr_matrix_in_range.
  - cbn [mbind result_bind]. rewrite py_truediv_4.
    + eexists. reflexivity.
    + destruct (entries A) as [|e l]; [congruence|].
      apply Forall_cons in Hin as [[_ Hc] _]. lia.
  - unfold rows_of, vals_of. rewrite !length_fmap. reflexivity.
  - unfold cols_of, vals_of. rewrite !length_fmap. reflexivity.
  - unfold rows_of. apply Forall_fmap. eapply Forall_impl; [exact Hin|].
    intros e [H _]. exact H.
  - unfold cols_of. apply Forall_fmap. eapply Forall_impl; [exact Hin|].
    intros e [_ H]. exact H.
Qed.

End Whole.

(** ** The values after the loop *)

Section Values.

Variable precision : float.

Lemma is_nan_transformed (binarize : bool) (v : float) :
  F64.is_nan (transformed precision binarize v) = F64.is_nan v.
Proof.
  unfold transformed. destruct binarize; simpl; [|apply F64Facts.is_nan_abs].
  destruct (F64.gtb (F64.abs v) precision) eqn:H; [|apply F64Facts.is_nan_abs].
  destruct v; try reflexivity.
  change (F64.abs S754_nan) with F64.nan in H.
  rewrite F64Facts.nan_gtb in H. discriminate.
Qed.

Lemma add_zero_transformed (binarize : bool) (v : float) :
  F64.add F64.zero (transformed precision binarize v)
  = transformed precision binarize v.
Proof.
  unfold transformed.
  destruct (binarize && F64.gtb (F64.abs v) precision);
    [apply F64Facts.add_zero_one|apply F64Facts.add_zero_abs].
Qed.

(** A position with one stored entry shows the transformed value itself. *)
Lemma dense_cell_single (binarize : bool) (v : float) :
  dense_cell [transformed precision binarize v] = transformed precision binarize v.
Proof. unfold dense_cell. simpl. apply add_zero_transformed. Qed.

Lemma transformed_below_threshold (v : float) :
  F64.leb (F64.abs v) precision = true ->
  transformed precision true v = transformed precision false v.
Proof.
  intros H. unfold transformed. rewrite (F64Facts.leb_not_gtb _ _ H). reflexivity.
Qed.

End Values.

(** ** The scenarios of the specification *)

(** Entries [(0,0,-3.0)] and [(1,1,2.0)], no binarizing: the array is
    [[3.0, 0], [0, 2.0]] and [maxval] is [3.0]. *)
Example scenario_magnitudes :
  ShowPattern precision_default binarize_default Samples.diagonal
  = Ok [ plt_figure (4%Q, 4%Q);
         plt_imshow {| im_data := [[Samples.three; F64.zero];
                                   [F64.zero; Samples.two]];
                       im_interpolation := "none"; im_cmap := "jet";
                       im_vmin := 0; im_vmax := Samples.three |};
         plt_show ].
Proof. vm_compute. reflexivity. Qed.

(** The same matrix, binarized at [precision = 1.0]: the array is
    [[1.0, 0], [0, 1.0]] and [maxval] is [1.0]. *)
Example scenario_binarized :
  ShowPattern F64.one true Samples.diagonal
  = Ok [ plt_figure (4%Q, 4%Q);
         plt_imshow {| im_data := [[F64.one; F64.zero]; [F64.zero; F64.one]];
                       im_interpolation := "none"; im_cmap := "jet";
                       im_vmin := 0; im_vmax := F64.one |};
         plt_show ].
Proof. vm_compute. reflexivity. Qed.

(** The single entry [(0,0,0.5)], binarized at [precision = 1.0]: the value
    is below the threshold and unchanged, [maxval] is [0.5]. *)
Example scenario_below_threshold :
  ShowPattern F64.one true Samples.single_half
  = Ok [ plt_figure (4%Q, 4%Q);
         plt_imshow {| im_data := [[Samples.half]];
                       im_interpolation := "none"; im_cmap := "jet";
                       im_vmin := 0; im_vmax := Samples.half |};
         plt_show ].
Proof. vm_compute. reflexivity. Qed.

(** Two entries [2.0] and [-3.0] for position [(0,1)]: the cell holds
    [5.0], while [maxval] is the largest single entry, [3.0]. *)
Example scenario_duplicates :
  ShowPattern precision_default binarize_default Samples.duplicated
  = Ok [ plt_figure (4%Q, 4%Q);
         plt_imshow {| im_data := [[F64.zero; Samples.five]];
                       im_interpolation := "none"; im_cmap := "jet";
                       im_vmin := 0; im_vmax := Samples.three |};
         plt_show ].
Proof. vm_compute. reflexivity. Qed.

(** A column index 2 in a matrix of width 2. *)
Example scenario_beyond_width :
  ShowPattern precision_default binarize_default Samples.beyond_width
  = Raise ColumnIndexExceeds.
Proof. vm_compute. reflexivity. Qed.

(** The constants are valid binary64 numbers. *)
Example constants_valid :
  Forall (fun x => valid_binary F64.prec F64.emax x = true)
         [F64.zero; F64.one; F64.minus_one; F64.nan; Samples.half; Samples.two;
          Samples.three; Samples.five; Samples.minus_three].
Proof. repeat constructor. Qed.

(** * The claims of the specification *)

(** C1. With [binarize] true, the value the loop leaves for a stored entry
    is [1.0] when [abs(value) > precision] (a strict comparison) and
    [abs(value)] otherwise; a value at or below the threshold keeps its
    magnitude and is not set to zero.  The loop does not raise, and keeps one
    value per stored entry. *)
Theorem binarize_snaps_above_threshold
        (precision : float) (A : SparseMatrix) (i : nat) (r c : Z) (v : float) :
  entries A !! i = Some (r, c, v) ->
  exists vals_all,
    transformed_values precision true A = Ok vals_all
    /\ length vals_all = length (entries A)
    /\ vals_all !! i
       = Some (if F64.gtb (F64.abs v) precision then F64.one else F64.abs v).
Proof.
  intros Hi.
  exists (transformed precision true <$> vals_of A).
  split; [apply transformed_values_eq|]. split.
  - unfold vals_of. rewrite !length_fmap. reflexivity.
  - unfold vals_of. rewrite !list_lookup_fmap, Hi. reflexivity.
Qed.

Lemma binarize_snaps_above_threshold_witness :
  entries Samples.diagonal !! 1%nat = Some (1, 1, Samples.two)
  /\ exists vals_all,
      transformed_values F64.one true Samples.diagonal = Ok vals_all
      /\ length vals_all = length (entries Samples.diagonal)
      /\ vals_all !! 1%nat
         = Some (if F64.gtb (F64.abs Samples.two) F64.one
                 then F64.one else F64.abs Samples.two).
Proof.
  split; [reflexivity|].
  apply (binarize_snaps_above_threshold F64.one Samples.diagonal 1 1 1 Samples.two).
  reflexivity.
Defined.

(** C2. With [binarize] false, the value the loop leaves for a stored entry
    is the magnitude of the entry's value, whatever [precision] is. *)
Theorem magnitude_without_binarize
        (precision : float) (A : SparseMatrix) (i : nat) (r c : Z) (v : float) :
  entries A !! i = Some (r, c, v) ->
  exists vals_all,
    transformed_values precision false A = Ok vals_all
    /\ length vals_all = length (entries A)
    /\ vals_all !! i = Some (F64.abs v).
Proof.
  intros Hi.
  exists (transformed precision false <$> vals_of A).
  split; [apply transformed_values_eq|]. split.
  - unfold vals_of. rewrite !length_fmap. reflexivity.
  - unfold vals_of. rewrite !list_lookup_fmap, Hi. reflexivity.
Qed.

Lemma magnitude_without_binarize_witness :
  entries Samples.diagonal !! 0%nat = Some (0, 0, Samples.minus_three)
  /\ exists vals_all,
      transformed_values F64.minus_one false Samples.diagonal = Ok vals_all
      /\ length vals_all = length (entries Samples.diagonal)
      /\ vals_all !! 0%nat = Some (F64.abs Samples.minus_three).
Proof.
  split; [reflexivity|].
  apply (magnitude_without_binarize F64.minus_one Samples.diagonal 0 0 0
                                    Samples.minus_three).
  reflexivity.
Defined.

(** C3. Whenever the call completes, the array handed to [imshow] has
    exactly [height] rows of [width] cells each, whichever positions are
    populated, and every position for which no entry is stored holds
    [0.0]. *)
Theorem dense_shape_and_default
        (precision : float) (binarize : bool) (A : SparseMatrix)
        (trace : list plt_call) :
  ShowPattern precision binarize A = Ok trace ->
  exists figsize args,
    trace = [plt_figure figsize; plt_imshow args; plt_show]
    /\ length (im_data args) = height A
    /\ Forall (fun row => length row = width A) (im_data args)
    /\ forall i j : nat,
        (i < height A)%nat -> (j < width A)%nat ->
        (forall r c v, (r, c, v) ∈ entries A ->
                       ~ (r = Z.of_nat i /\ c = Z.of_nat j)) ->
        at_position (im_data args) i j = Some F64.zero.
Proof.
  intros H. apply ShowPattern_Ok_inv in H as (maxval & _ & _ & ->).
  eexists _, _. split; [reflexivity|]. cbn [im_data].
  split; [apply length_todense|].
  split; [exact (todense_row_length {| sp_shape := (height A, width A) |})|].
  intros i j Hi Hj Hnone.
  rewrite todense_at_position by assumption.
  unfold cell. rewrite entries_at_transformed, (stored_at_nil A i j Hnone).
  reflexivity.
Qed.

Lemma dense_shape_and_default_witness :
  exists trace,
    ShowPattern F64.minus_one false Samples.diagonal = Ok trace
    /\ exists figsize args,
        trace = [plt_figure figsize; plt_imshow args; plt_show]
        /\ length (im_data args) = height Samples.diagonal
        /\ Forall (fun row => length row = width Samples.diagonal) (im_data args)
        /\ forall i j : nat,
            (i < height Samples.diagonal)%nat -> (j < width Samples.diagonal)%nat ->
            (forall r c v, (r, c, v) ∈ entries Samples.diagonal ->
                           ~ (r = Z.of_nat i /\ c = Z.of_nat j)) ->
            at_position (im_data args) i j = Some F64.zero.
Proof.
  eexists. split; [vm_compute; reflexivity|].
  apply (dense_shape_and_default F64.minus_one false Samples.diagonal).
  vm_compute. reflexivity.
Defined.

(** C4, as stated, fails when a NaN is stored ahead of a number: for the
    entries [(0,0,nan)] and [(0,1,-3.0)] the transformed values are NaN and
    [3.0], [max] keeps the NaN it met first, and [maxval] is NaN, which is
    not the maximum of the two: [3.0 <= maxval] is false. *)
Lemma maxval_nan_first_counterexample :
  entries MoreSamples.nan_first <> []
  /\ color_scale precision_default binarize_default MoreSamples.nan_first
     = Ok ([F64.nan; Samples.three], 0, F64.nan)
  /\ Samples.three ∈ [F64.nan; Samples.three]
  /\ F64.leb Samples.three F64.nan = false
  /\ F64.nan <> Samples.three.
Proof.
  split; [discriminate|]. split; [reflexivity|].
  split; [right; left|]. split; [reflexivity|discriminate].
Qed.

(** C4, amended.  For a matrix with at least one stored entry, line 31 is
    reached with [minval] equal to 0 and with [maxval] what [max] returns on
    the transformed values, each of which is the magnitude of its entry's
    value, or [1.0] where binarizing applies: [maxval] is one of them and
    none of them compares greater than it.  When no stored value is NaN,
    [maxval] is their maximum: every transformed value is at most [maxval].
    These two numbers are the colour range of any image the call goes on to
    show. *)
Theorem color_scale_is_zero_to_max
        (precision : float) (binarize : bool) (A : SparseMatrix) :
  entries A <> [] ->
  exists vals_all maxval,
    transformed_values precision binarize A = Ok vals_all
    /\ length vals_all = length (entries A)
    /\ (forall i r c v,
          entries A !! i = Some (r, c, v) ->
          vals_all !! i
          = Some (if binarize && F64.gtb (F64.abs v) precision
                  then F64.one else F64.abs v))
    /\ color_scale precision binarize A = Ok (vals_all, 0, maxval)
    /\ py_max vals_all = Ok maxval
    /\ maxval ∈ vals_all
    /\ (forall x, x ∈ vals_all -> F64.gtb x maxval = false)
    /\ (Forall (fun e => F64.is_nan e.2 = false) (entries A) ->
        forall x, x ∈ vals_all -> F64.leb x maxval = true)
    /\ (forall trace, ShowPattern precision binarize A = Ok trace ->
        exists figsize args,
          trace = [plt_figure figsize; plt_imshow args; plt_show]
          /\ im_vmin args = 0 /\ im_vmax args = maxval).
Proof.
  intros Hne.
  destruct (py_max_spec (transformed precision binarize <$> vals_of A))
    as (maxval & Hmax & Hin & Hup).
  { unfold vals_of. destruct (entries A); [congruence|discriminate]. }
  exists (transformed precision binarize <$> vals_of A), maxval.
  split; [apply transformed_values_eq|].
  split; [unfold vals_of; rewrite !length_fmap; reflexivity|].
  split.
  { intros i r c v Hi. unfold vals_of. rewrite !list_lookup_fmap, Hi.
    reflexivity. }
  split; [rewrite color_scale_eq, Hmax; reflexivity|].
  split; [exact Hmax|]. split; [exact Hin|].
  split; [apply Forall_forall, Hup|]. split.
  - intros Hnan. apply Forall_forall.
    apply (py_max_greatest _ _ Hmax).
    unfold vals_of. rewrite <- list_fmap_compose. apply Forall_fmap.
    eapply Forall_impl; [exact Hnan|]. intros e He. simpl.
    rewrite is_nan_transformed. exact He.
  - intros trace Htrace.
    apply ShowPattern_Ok_inv in Htrace as (maxval' & Hmax' & _ & ->).
    rewrite Hmax in Hmax'. injection Hmax' as <-.
    eexists _, _. repeat split; reflexivity.
Qed.

Lemma color_scale_is_zero_to_max_witness :
  entries Samples.diagonal <> []
  /\ exists vals_all maxval,
      transformed_values F64.minus_one false Samples.diagonal = Ok vals_all
      /\ length vals_all = length (entries Samples.diagonal)
      /\ (forall i r c v,
            entries Samples.diagonal !! i = Some (r, c, v) ->
            vals_all !! i
            = Some (if false && F64.gtb (F64.abs v) F64.minus_one
                    then F64.one else F64.abs v))
      /\ color_scale F64.minus_one false Samples.diagonal = Ok (vals_all, 0, maxval)
      /\ py_max vals_all = Ok maxval
      /\ maxval ∈ vals_all
      /\ (forall x, x ∈ vals_all -> F64.gtb x maxval = false)
      /\ (Forall (fun e => F64.is_nan e.2 = false) (entries Samples.diagonal) ->
          forall x, x ∈ vals_all -> F64.leb x maxval = true)
      /\ (forall trace,
             ShowPattern F64.minus_one false Samples.diagonal = Ok trace ->
             exists figsize args,
               trace = [plt_figure figsize; plt_imshow args; plt_show]
               /\ im_vmin args = 0 /\ im_vmax args = maxval).
Proof.
  split; [discriminate|].
  apply (color_scale_is_zero_to_max F64.minus_one false Samples.diagonal).
  discriminate.
Defined.

(** C5. Whenever the call completes, the figure is the fixed square
    [(4, 4)]: its second side is [4*width/width], which is 4 whatever the
    height of the matrix is; the array is shown with interpolation ["none"]
    over the colour range from [minval] to [maxval]. *)
Theorem figure_is_fixed_square
        (precision : float) (binarize : bool) (A : SparseMatrix)
        (trace : list plt_call) :
  ShowPattern precision binarize A = Ok trace ->
  exists vals_all minval maxval D,
    color_scale precision binarize A = Ok (vals_all, minval, maxval)
    /\ py_truediv (4 * Z.of_nat (width A)) (Z.of_nat (width A)) = Ok 4%Q
    /\ trace =
       [ plt_figure (4%Q, 4%Q);
         plt_imshow {| im_data := D; im_interpolation := "none";
                       im_cmap := "jet"; im_vmin := minval; im_vmax := maxval |};
         plt_show ].
Proof.
  intros H. pose proof H as H'.
  apply ShowPattern_Ok_inv in H as (maxval & Hmax & Hcsr & ->).
  eexists _, 0, maxval, _. split; [rewrite color_scale_eq, Hmax; reflexivity|].
  split; [|reflexivity].
  apply py_truediv_4.
  apply csr_matrix_Ok in Hcsr as (_ & _ & _ & _ & Hcol).
  unfold cols_of, vals_of in *. destruct (entries A) as [|e l]; [discriminate|].
  apply Forall_cons in Hcol as [Hc _]. simpl in Hc. lia.
Qed.

Lemma figure_is_fixed_square_witness :
  exists trace,
    ShowPattern F64.one true Samples.duplicated = Ok trace
    /\ exists vals_all minval maxval D,
        color_scale F64.one true Samples.duplicated = Ok (vals_all, minval, maxval)
        /\ py_truediv (4 * Z.of_nat (width Samples.duplicated))
                      (Z.of_nat (width Samples.duplicated)) = Ok 4%Q
        /\ trace =
           [ plt_figure (4%Q, 4%Q);
             plt_imshow {| im_data := D; im_interpolation := "none";
                           im_cmap := "jet"; im_vmin := minval; im_vmax := maxval |};
             plt_show ].
Proof.
  eexists. split; [vm_compute; reflexivity|].
  apply (figure_is_fixed_square F64.one true Samples.duplicated).
  vm_compute. reflexivity.
Defined.

(** C6. A matrix without stored entries is not rendered: the loop leaves an
    empty sequence, [max] of it raises, and the call ends with that
    exception. *)
Theorem empty_matrix_raises
        (precision : float) (binarize : bool) (h w : nat) :
  transformed_values precision binarize
                     {| entries := []; height := h; width := w |} = Ok []
  /\ py_max [] = Raise MaxEmptySequence
  /\ ShowPattern precision binarize {| entries := []; height := h; width := w |}
     = Raise MaxEmptySequence.
Proof.
  split; [|split].
  - unfold transformed_values, transform_loop. reflexivity.
  - reflexivity.
  - unfold ShowPattern, transform_loop. cbn [COO rows_of cols_of vals_of entries].
    reflexivity.
Qed.

(** C7. If a stored entry has a row index at or beyond the declared height,
    or a column index at or beyond the declared width, the call fails: the
    lines up to the maximum complete, the construction of the matrix from
    the triplets raises an index-exceeds-dimensions error, and that error
    ends the call; the entry is neither clamped nor dropped. *)
Theorem index_beyond_shape_raises
        (precision : float) (binarize : bool) (A : SparseMatrix)
        (r c : Z) (v : float) :
  (r, c, v) ∈ entries A ->
  Z.of_nat (height A) <= r \/ Z.of_nat (width A) <= c ->
  exists vals_all maxval e,
    color_scale precision binarize A = Ok (vals_all, 0, maxval)
    /\ csr_matrix vals_all (rows_of A) (cols_of A) (height A, width A) = Raise e
    /\ out_of_bounds e = true
    /\ ShowPattern precision binarize A = Raise e.
Proof.
  intros Hin Hout.
  destruct (py_max_spec (transformed precision binarize <$> vals_of A))
    as (maxval & Hmax & _).
  { unfold vals_of. destruct (entries A); [|discriminate].
    apply elem_of_nil in Hin. contradiction. }
  destruct (csr_matrix_exceeds (transformed precision binarize <$> vals_of A)
                               (rows_of A) (cols_of A) (height A, width A))
    as (e & Hcsr & He).
  - unfold rows_of, vals_of. rewrite !length_fmap. reflexivity.
  - unfold cols_of, vals_of. rewrite !length_fmap. reflexivity.
  - destruct Hout as [Hr|Hc]; [left|right]; apply Exists_exists.
    + exists r. split; [|exact Hr].
      apply (list_elem_of_fmap_2 (fun e : Z * Z * float => e.1.1) _ _ Hin).
    + exists c. split; [|exact Hc].
      apply (list_elem_of_fmap_2 (fun e : Z * Z * float => e.1.2) _ _ Hin).
  - exists (transformed precision binarize <$> vals_of A), maxval, e.
    split; [rewrite color_scale_eq, Hmax; reflexivity|].
    split; [exact Hcsr|]. split; [exact He|].
    rewrite ShowPattern_eq, color_scale_eq, Hmax. cbn [mbind result_bind].
    rewrite Hcsr. reflexivity.
Qed.

Lemma index_beyond_shape_raises_witness :
  ((1, 2, Samples.half) ∈ entries Samples.beyond_width
   /\ (Z.of_nat (height Samples.beyond_width) <= 1
       \/ Z.of_nat (width Samples.beyond_width) <= 2))
  /\ exists vals_all maxval e,
      color_scale F64.minus_one false Samples.beyond_width = Ok (vals_all, 0, maxval)
      /\ csr_matrix vals_all (rows_of Samples.beyond_width)
                    (cols_of Samples.beyond_width)
                    (height Samples.beyond_width, width Samples.beyond_width)
         = Raise e
      /\ out_of_bounds e = true
      /\ ShowPattern F64.minus_one false Samples.beyond_width = Raise e.
Proof.
  assert (Hin : (1, 2, Samples.half) ∈ entries Samples.beyond_width)
    by (right; left).
  assert (Hout : Z.of_nat (height Samples.beyond_width) <= 1
                 \/ Z.of_nat (width Samples.beyond_width) <= 2)
    by (right; simpl; lia).
  split; [split; assumption|].
  exact (index_beyond_shape_raises F64.minus_one false Samples.beyond_width
                                   1 2 Samples.half Hin Hout).
Defined.

(** The transformed values of the entries stored for a position, read off
    the entries themselves. *)
Lemma stored_at_transformed (precision : float) (binarize : bool)
      (A : SparseMatrix) (i j : nat) :
  omap (fun e : Z * Z * float =>
          if (e.1.1 =? Z.of_nat i) && (e.1.2 =? Z.of_nat j)
          then Some (if binarize && F64.gtb (F64.abs e.2) precision
                     then F64.one else F64.abs e.2)
          else None)
       (entries A)
  = transformed precision binarize <$> stored_at A i j.
Proof.
  unfold stored_at. induction (entries A) as [|e l IH]; [reflexivity|].
  cbn [omap list_omap]. simpl in IH |- *. rewrite IH.
  destruct ((e.1.1 =? Z.of_nat i) && (e.1.2 =? Z.of_nat j)); reflexivity.
Qed.

(** C8. Entries for one position are not merged before the matrix is built:
    the construction receives one transformed value per stored entry,
    together with the unchanged row and column sequences, and each cell of
    the array shown holds the sum of all the transformed values stored for
    its position, taken in some order: the first of them, to which the
    others are added in turn, the whole added to the zero the array starts
    from.  A cell with several entries is therefore not one representative
    of them, and a cell with none is [0.0]. *)
Theorem duplicates_are_passed_through
        (precision : float) (binarize : bool) (A : SparseMatrix)
        (trace : list plt_call) :
  ShowPattern precision binarize A = Ok trace ->
  exists vals_all A_all figsize args,
    transformed_values precision binarize A = Ok vals_all
    /\ length vals_all = length (entries A)
    /\ csr_matrix vals_all (rows_of A) (cols_of A) (height A, width A) = Ok A_all
    /\ sp_row A_all = rows_of A /\ sp_col A_all = cols_of A
    /\ sp_data A_all = vals_all
    /\ trace = [plt_figure figsize; plt_imshow args; plt_show]
    /\ im_data args = todense A_all
    /\ forall i j : nat,
        (i < height A)%nat -> (j < width A)%nat ->
        exists summed : list float,
          summed ≡ₚ
            omap (fun e : Z * Z * float =>
                    if (e.1.1 =? Z.of_nat i) && (e.1.2 =? Z.of_nat j)
                    then Some (if binarize && F64.gtb (F64.abs e.2) precision
                               then F64.one else F64.abs e.2)
                    else None)
                 (entries A)
          /\ at_position (im_data args) i j
             = Some (match summed with
                     | [] => F64.zero
                     | x :: rest => F64.add F64.zero (fold_left F64.add rest x)
                     end).
Proof.
  intros H. apply ShowPattern_Ok_inv in H as (maxval & _ & Hcsr & ->).
  eexists _, _, _, _.
  split; [apply transformed_values_eq|].
  split; [unfold vals_of; rewrite !length_fmap; reflexivity|].
  split; [exact Hcsr|]. repeat (split; [reflexivity|]).
  intros i j Hi Hj.
  exists (transformed precision binarize <$> stored_at A i j).
  split; [rewrite stored_at_transformed; reflexivity|].
  cbn [im_data]. rewrite todense_at_position by assumption.
  unfold cell. rewrite entries_at_transformed.
  unfold dense_cell, sum_duplicates.
  destruct (transformed precision binarize <$> stored_at A i j); reflexivity.
Qed.

Lemma duplicates_are_passed_through_witness :
  exists trace,
    ShowPattern F64.minus_one false MoreSamples.tripled = Ok trace
    /\ exists vals_all A_all figsize args,
        transformed_values F64.minus_one false MoreSamples.tripled = Ok vals_all
        /\ length vals_all = length (entries MoreSamples.tripled)
        /\ csr_matrix vals_all (rows_of MoreSamples.tripled)
                      (cols_of MoreSamples.tripled)
                      (height MoreSamples.tripled, width MoreSamples.tripled)
           = Ok A_all
        /\ sp_row A_all = rows_of MoreSamples.tripled
        /\ sp_col A_all = cols_of MoreSamples.tripled
        /\ sp_data A_all = vals_all
        /\ trace = [plt_figure figsize; plt_imshow args; plt_show]
        /\ im_data args = todense A_all
        /\ forall i j : nat,
            (i < height MoreSamples.tripled)%nat ->
            (j < width MoreSamples.tripled)%nat ->
            exists summed : list float,
              summed ≡ₚ
                omap (fun e : Z * Z * float =>
                        if (e.1.1 =? Z.of_nat i) && (e.1.2 =? Z.of_nat j)
                        then Some (if false && F64.gtb (F64.abs e.2) F64.minus_one
                                   then F64.one else F64.abs e.2)
                        else None)
                     (entries MoreSamples.tripled)
              /\ at_position (im_data args) i j
                 = Some (match summed with
                         | [] => F64.zero
                         | x :: rest =>
                             F64.add F64.zero (fold_left F64.add rest x)
                         end).
Proof.
  eexists. split; [vm_compute; reflexivity|].
  apply (duplicates_are_passed_through F64.minus_one false MoreSamples.tripled).
  vm_compute. reflexivity.
Defined.

(** Three entries [2.0], [-3.0] and [0.5] for one position: the cell holds
    [5.5], more than any single one of them. *)
Example scenario_three_duplicates :
  ShowPattern precision_default binarize_default MoreSamples.tripled
  = Ok [ plt_figure (4%Q, 4%Q);
         plt_imshow {| im_data := [[F64.of_dyadic 11 (-1)]];
                       im_interpolation := "none"; im_cmap := "jet";
                       im_vmin := 0; im_vmax := Samples.three |};
         plt_show ].
Proof. vm_compute. reflexivity. Qed.

(** C9, as stated, fails on a stored NaN: with [precision = -1] and
    [binarize] true the comparison [abs(nan) > -1] is false, the entry stays
    NaN instead of becoming [1.0], and [maxval] is NaN for this non-empty
    matrix. *)
Lemma default_precision_nan_counterexample :
  entries Samples.with_nan !! 0%nat = Some (0, 0, F64.nan)
  /\ F64.gtb (F64.abs F64.nan) precision_default = false
  /\ transformed_values precision_default true Samples.with_nan = Ok [F64.nan]
  /\ color_scale precision_default true Samples.with_nan = Ok ([F64.nan], 0, F64.nan)
  /\ F64.nan <> F64.one.
Proof. repeat split. discriminate. Qed.

(** C9, amended.  With [precision = -1] and [binarize] true, a stored entry
    whose value is not NaN has a magnitude that is at least zero and exceeds
    [-1], and is rendered as [1.0]; when no stored value is NaN, [maxval] is
    [1.0], also as the upper end of the colour range of the image shown. *)
Theorem default_precision_binarizes_numbers
        (A : SparseMatrix) (i : nat) (r c : Z) (v : float) :
  entries A !! i = Some (r, c, v) ->
  F64.is_nan v = false ->
  F64.leb F64.zero (F64.abs v) = true
  /\ F64.gtb (F64.abs v) precision_default = true
  /\ exists vals_all,
      transformed_values precision_default true A = Ok vals_all
      /\ vals_all !! i = Some F64.one
      /\ (Forall (fun e => F64.is_nan e.2 = false) (entries A) ->
          color_scale precision_default true A = Ok (vals_all, 0, F64.one)
          /\ forall trace, ShowPattern precision_default true A = Ok trace ->
             exists figsize args,
               trace = [plt_figure figsize; plt_imshow args; plt_show]
               /\ im_vmax args = F64.one).
Proof.
  intros Hi Hv. unfold precision_default.
  split; [apply F64Facts.abs_nonneg, Hv|].
  split; [apply F64Facts.abs_gtb_minus_one, Hv|].
  exists (transformed F64.minus_one true <$> vals_of A).
  split; [apply transformed_values_eq|]. split.
  - unfold vals_of. rewrite !list_lookup_fmap, Hi. simpl.
    unfold transformed. rewrite (F64Facts.abs_gtb_minus_one v Hv). reflexivity.
  - intros Hnan.
    assert (Hmax : py_max (transformed F64.minus_one true <$> vals_of A) = Ok F64.one).
    { unfold vals_of. destruct (entries A) as [|e l]; [discriminate|].
      apply Forall_cons in Hnan as [He Hl]. cbn [fmap list_fmap py_max].
      unfold transformed at 2.
      rewrite (F64Facts.abs_gtb_minus_one _ He). cbn [andb]. f_equal.
      clear Hi He. induction l as [|e' l IH]; [reflexivity|].
      apply Forall_cons in Hl as [He' Hl]. cbn [fmap list_fmap fold_left].
      unfold transformed at 2.
      rewrite (F64Facts.abs_gtb_minus_one _ He'). cbn [andb].
      exact (IH Hl). }
    split; [rewrite color_scale_eq, Hmax; reflexivity|].
    intros trace Htrace.
    apply ShowPattern_Ok_inv in Htrace as (maxval & Hmax' & _ & ->).
    rewrite Hmax in Hmax'. injection Hmax' as <-.
    eexists _, _. split; reflexivity.
Qed.

Lemma default_precision_binarizes_numbers_witness :
  (entries Samples.diagonal !! 0%nat = Some (0, 0, Samples.minus_three)
   /\ F64.is_nan Samples.minus_three = false)
  /\ F64.leb F64.zero (F64.abs Samples.minus_three) = true
  /\ F64.gtb (F64.abs Samples.minus_three) precision_default = true
  /\ exists vals_all,
      transformed_values precision_default true Samples.diagonal = Ok vals_all
      /\ vals_all !! 0%nat = Some F64.one
      /\ (Forall (fun e => F64.is_nan e.2 = false) (entries Samples.diagonal) ->
          color_scale precision_default true Samples.diagonal = Ok (vals_all, 0, F64.one)
          /\ forall trace,
             ShowPattern precision_default true Samples.diagonal = Ok trace ->
             exists figsize args,
               trace = [plt_figure figsize; plt_imshow args; plt_show]
               /\ im_vmax args = F64.one).
Proof.
  split; [split; reflexivity|].
  apply (default_precision_binarizes_numbers Samples.diagonal 0 0 0
                                             Samples.minus_three);
    reflexivity.
Defined.

(** C10. When every stored value has a magnitude at or below [precision],
    binarizing changes nothing: the transformed values, the colour range and
    the whole outcome of the call (the array shown, or the exception) are the
    same with [binarize] true as with [binarize] false. *)
Theorem binarize_is_identity_below_threshold
        (precision : float) (A : SparseMatrix) :
  Forall (fun e => F64.leb (F64.abs e.2) precision = true) (entries A) ->
  transformed_values precision true A = transformed_values precision false A
  /\ color_scale precision true A = color_scale precision false A
  /\ ShowPattern precision true A = ShowPattern precision false A.
Proof.
  intros Hle.
  assert (Hvals : transformed precision true <$> vals_of A
                  = transformed precision false <$> vals_of A).
  { unfold vals_of. rewrite <- !list_fmap_compose.
    apply Forall_fmap_ext_1. eapply Forall_impl; [exact Hle|].
    intros e He. simpl. apply transformed_below_threshold, He. }
  rewrite !ShowPattern_eq, !color_scale_eq, !transformed_values_eq, Hvals.
  repeat split.
Qed.

Lemma binarize_is_identity_below_threshold_witness :
  Forall (fun e => F64.leb (F64.abs e.2) F64.one = true) (entries Samples.single_half)
  /\ transformed_values F64.one true Samples.single_half
     = transformed_values F64.one false Samples.single_half
  /\ color_scale F64.one true Samples.single_half
     = color_scale F64.one false Samples.single_half
  /\ ShowPattern F64.one true Samples.single_half
     = ShowPattern F64.one false Samples.single_half.
Proof.
  assert (H : Forall (fun e => F64.leb (F64.abs e.2) F64.one = true)
                     (entries Samples.single_half))
    by (repeat constructor).
  split; [exact H|].
  exact (binarize_is_identity_below_threshold F64.one Samples.single_half H).
Defined.

(** * Further properties of the code *)

(** ** More on the order of binary64 numbers *)

Module F64Order.

(** Comparing with an equal number gives the same outcome. *)
Lemma SFcompare_Eq_r (x y z : float) :
  SFcompare y z = Some Eq -> SFcompare x y = SFcompare x z.
Proof.
  destruct x as [sx|sx| |sx mx ex], y as [sy|sy| |sy my ey],
           z as [sz|sz| |sz mz ez]; simpl; intros Hyz;
    try discriminate; try reflexivity;
    repeat match goal with s : bool |- _ => destruct s end;
    simpl in *; try discriminate; try reflexivity;
    change (Pos.compare_cont Eq my mz) with (my ?= mz)%positive in *;
    injection Hyz as Hyz;
    destruct (Z.compare_spec ey ez); try discriminate; subst;
    destruct (Pos.compare_spec my mz); try discriminate; subst; reflexivity.
Qed.

Lemma leb_trans (x y z : float) :
  F64.leb x y = true -> F64.leb y z = true -> F64.leb x z = true.
Proof.
  unfold F64.leb, SFleb. intros Hxy Hyz.
  destruct (SFcompare y z) as [[]|] eqn:Eyz; try discriminate.
  - rewrite <- (SFcompare_Eq_r x y z Eyz). exact Hxy.
  - destruct (SFcompare x y) as [c|] eqn:Exy; [|discriminate].
    rewrite (F64Facts.SFcompare_Lt_trans x y z c Exy); [reflexivity| |exact Eyz].
    intros ->. discriminate.
Qed.

(** [x <= y < z] gives [z > x]. *)
Lemma leb_gtb_trans (x y z : float) :
  F64.leb x y = true -> F64.gtb z y = true -> F64.gtb z x = true.
Proof.
  unfold F64.leb, F64.gtb, SFleb, SFltb. intros Hxy Hyz.
  destruct (SFcompare y z) as [[]|] eqn:Eyz; try discriminate.
  destruct (SFcompare x y) as [c|] eqn:Exy; [|discriminate].
  rewrite (F64Facts.SFcompare_Lt_trans x y z c Exy); [reflexivity| |exact Eyz].
  intros ->. discriminate.
Qed.

Lemma leb_antisym (x y : float) :
  F64.leb x y = true -> F64.leb y x = true -> SFcompare x y = Some Eq.
Proof.
  unfold F64.leb, SFleb. rewrite (F64Facts.SFcompare_antisym x y).
  destruct (SFcompare x y) as [[]|]; simpl; congruence.
Qed.

(** Among numbers with a cleared sign, comparing equal is being equal. *)
Lemma abs_fixed_Eq (x y : float) :
  F64.abs x = x -> F64.abs y = y -> SFcompare x y = Some Eq -> x = y.
Proof.
  destruct x as [sx|sx| |sx mx ex], y as [sy|sy| |sy my ey]; simpl;
    intros Hx Hy H; try discriminate;
    injection Hx as <-; injection Hy as <-;
    try reflexivity; try discriminate.
  change (Pos.compare_cont Eq mx my) with (mx ?= my)%positive in H.
  injection H as H.
  destruct (Z.compare_spec ex ey); try discriminate; subst.
  destruct (Pos.compare_spec mx my); try discriminate; subst. reflexivity.
Qed.

Lemma abs_idem (x : float) : F64.abs (F64.abs x) = F64.abs x.
Proof. destruct x; reflexivity. Qed.

Lemma abs_opp (x : float) : F64.abs (SFopp x) = F64.abs x.
Proof. destruct x; reflexivity. Qed.

Lemma gtb_is_nan_l (x y : float) : F64.gtb x y = true -> F64.is_nan x = false.
Proof. destruct x, y; simpl; intros; try discriminate; reflexivity. Qed.

Lemma leb_is_nan_r (x y : float) : F64.leb x y = true -> F64.is_nan y = false.
Proof. destruct x, y; simpl; intros; try discriminate; reflexivity. Qed.

Lemma leb_refl (x : float) : F64.is_nan x = false -> F64.leb x x = true.
Proof.
  intros H. unfold F64.leb, SFleb. rewrite F64Facts.SFcompare_refl by assumption.
  reflexivity.
Qed.

End F64Order.

(** ** The loop on sequences of any length *)

Section LoopAnyLength.

Variable precision : float.
Variable binarize : bool.

Lemma length_zip3 {T1 T2 T3} (l1 : list T1) (l2 : list T2) (l3 : list T3) :
  length (zip3 l1 l2 l3) = (length l1 `min` (length l2 `min` length l3))%nat.
Proof.
  revert l2 l3. induction l1 as [|x1 l1 IH]; intros [|x2 l2] [|x3 l3];
    simpl; try reflexivity.
  rewrite IH. reflexivity.
Qed.

Lemma for_each_loop_body_prefix (its : list (Z * Z * float)) :
  forall (done todo : list float),
    (length its <= length todo)%nat ->
    for_each (loop_body precision binarize)
             (enumerate_from (length done) its) (done ++ todo)
    = Ok (done ++ (transformed precision binarize <$> take (length its) todo)
               ++ drop (length its) todo).
Proof.
  induction its as [|e its IH]; intros done [|x todo] Hlen;
    simpl in Hlen; try lia.
  - reflexivity.
  - reflexivity.
  - cbn [enumerate_from for_each].
    rewrite loop_body_middle. cbn [mbind result_bind].
    specialize (IH (done ++ [transformed precision binarize x]) todo).
    rewrite length_app, Nat.add_1_r, <- !app_assoc in IH. simpl in IH.
    rewrite IH by lia. reflexivity.
Qed.

Lemma transformed_idem (v : float) :
  transformed precision binarize (transformed precision binarize v)
  = transformed precision binarize v.
Proof.
  unfold transformed. destruct binarize; simpl; [|apply F64Order.abs_idem].
  destruct (F64.gtb (F64.abs v) precision) eqn:H.
  - change (F64.abs F64.one) with F64.one.
    destruct (F64.gtb F64.one precision); reflexivity.
  - rewrite F64Order.abs_idem, H. reflexivity.
Qed.

Lemma transformed_abs (v w : float) :
  F64.abs v = F64.abs w ->
  transformed precision binarize v = transformed precision binarize w.
Proof. intros H. unfold transformed. rewrite H. reflexivity. Qed.

End LoopAnyLength.

(** X1. The loop of lines 11-14 never raises, whatever the lengths of the
    three sequences are: [zip] stops with the shortest of them, the values up
    to there are transformed and the values after it are left as they
    were. *)
Theorem loop_stops_with_shortest_sequence
        (precision : float) (binarize : bool)
        (rows_all cols_all : list Z) (vals_all : list float) :
  transform_loop precision binarize rows_all cols_all vals_all
  = Ok ((transformed precision binarize
           <$> take (length rows_all `min` length cols_all) vals_all)
        ++ drop (length rows_all `min` length cols_all) vals_all).
Proof.
  unfold transform_loop, enumerate.
  pose proof (length_zip3 rows_all cols_all vals_all) as Hlen.
  rewrite (for_each_loop_body_prefix precision binarize _ [] vals_all) by lia.
  cbn [app]. rewrite Hlen.
  set (n := (length rows_all `min` length cols_all)%nat).
  destruct (Nat.le_gt_cases n (length vals_all)) as [Hle|Hgt].
  - replace (length rows_all `min` (length cols_all `min` length vals_all))%nat
      with n by lia. reflexivity.
  - replace (length rows_all `min` (length cols_all `min` length vals_all))%nat
      with (length vals_all) by lia.
    rewrite !firstn_all, !drop_all, (take_ge vals_all n), (drop_ge vals_all n) by lia.
    reflexivity.
Qed.

(** X2. The loop is idempotent: run again on the values it has produced, it
    leaves every one of them unchanged. *)
Theorem loop_is_idempotent
        (precision : float) (binarize : bool) (A : SparseMatrix)
        (vals_all : list float) :
  transformed_values precision binarize A = Ok vals_all ->
  transform_loop precision binarize (rows_of A) (cols_of A) vals_all = Ok vals_all.
Proof.
  rewrite transformed_values_eq. intros [= <-].
  unfold transform_loop, enumerate, rows_of, cols_of.
  set (vals := transformed precision binarize <$> vals_of A).
  assert (Hlen : length vals = length (entries A)).
  { unfold vals, vals_of. rewrite !length_fmap. reflexivity. }
  rewrite (for_each_loop_body precision binarize _ [] vals)
    by (rewrite length_zip3_COO; congruence).
  cbn [app]. f_equal. unfold vals. rewrite <- list_fmap_compose.
  apply list_fmap_ext. intros _ v _. apply transformed_idem.
Qed.

Lemma loop_is_idempotent_witness :
  transformed_values F64.one true Samples.diagonal = Ok [F64.one; F64.one]
  /\ transform_loop F64.one true (rows_of Samples.diagonal)
                    (cols_of Samples.diagonal) [F64.one; F64.one]
     = Ok [F64.one; F64.one].
Proof.
  assert (H : transformed_values F64.one true Samples.diagonal
              = Ok [F64.one; F64.one]) by reflexivity.
  split; [exact H|].
  exact (loop_is_idempotent F64.one true Samples.diagonal _ H).
Defined.

(** ** Matrices with the same magnitudes *)

Lemma same_magnitudes_views (precision : float) (binarize : bool)
      (l l' : list (Z * Z * float)) :
  Forall2 (fun e e' => e.1 = e'.1 /\ F64.abs e.2 = F64.abs e'.2) l l' ->
  (fun e => e.1.1) <$> l = (fun e => e.1.1) <$> l'
  /\ (fun e => e.1.2) <$> l = (fun e => e.1.2) <$> l'
  /\ transformed precision binarize <$> ((fun e => e.2) <$> l)
     = transformed precision binarize <$> ((fun e => e.2) <$> l').
Proof.
  induction 1 as [|e e' l l' [Hpos Habs] _ (IH1 & IH2 & IH3)];
    [repeat split|].
  cbn [fmap list_fmap] in *. rewrite IH1, IH2, IH3, Hpos.
  rewrite (transformed_abs precision binarize _ _ Habs). repeat split.
Qed.

(** X3. The signs of the stored values do not matter: two matrices of the
    same shape whose entries have, in order, the same positions and the same
    magnitudes have the same outcome, be it the calls made or the
    exception. *)
Theorem outcome_depends_on_magnitudes_only
        (precision : float) (binarize : bool) (A A' : SparseMatrix) :
  height A = height A' -> width A = width A' ->
  Forall2 (fun e e' => e.1 = e'.1 /\ F64.abs e.2 = F64.abs e'.2)
          (entries A) (entries A') ->
  ShowPattern precision binarize A = ShowPattern precision binarize A'.
Proof.
  intros Hh Hw Hent.
  destruct (same_magnitudes_views precision binarize _ _ Hent) as (Hr & Hc & Hv).
  rewrite !ShowPattern_eq, !color_scale_eq.
  unfold rows_of, cols_of, vals_of. rewrite Hh, Hw, Hr, Hc, Hv. reflexivity.
Qed.

Lemma outcome_depends_on_magnitudes_only_witness :
  (height Samples.diagonal = height MoreSamples.diagonal_negated
   /\ width Samples.diagonal = width MoreSamples.diagonal_negated
   /\ Forall2 (fun e e' => e.1 = e'.1 /\ F64.abs e.2 = F64.abs e'.2)
              (entries Samples.diagonal) (entries MoreSamples.diagonal_negated))
  /\ ShowPattern F64.one true Samples.diagonal
     = ShowPattern F64.one true MoreSamples.diagonal_negated.
Proof.
  assert (H : Forall2 (fun e e' => e.1 = e'.1 /\ F64.abs e.2 = F64.abs e'.2)
                      (entries Samples.diagonal)
                      (entries MoreSamples.diagonal_negated))
    by (repeat constructor).
  split; [split; [reflexivity|split; [reflexivity|exact H]]|].
  exact (outcome_depends_on_magnitudes_only
           F64.one true Samples.diagonal MoreSamples.diagonal_negated
           eq_refl eq_refl H).
Defined.

(** ** The colour range *)

Section ColourRange.

Variable precision : float.
Variable binarize : bool.

(** A transformed value has its sign cleared, and is at least zero unless
    it is NaN. *)
Lemma transformed_abs_fixed (v : float) :
  F64.abs (transformed precision binarize v) = transformed precision binarize v.
Proof.
  unfold transformed.
  destruct (binarize && F64.gtb (F64.abs v) precision);
    [reflexivity|apply F64Order.abs_idem].
Qed.

Lemma transformed_nonneg (v : float) :
  F64.is_nan v = false ->
  F64.leb F64.zero (transformed precision binarize v) = true.
Proof.
  intros Hv. unfold transformed.
  destruct (binarize && F64.gtb (F64.abs v) precision);
    [reflexivity|apply F64Facts.abs_nonneg, Hv].
Qed.

Lemma transformed_values_not_nan (A : SparseMatrix) :
  Forall (fun e => F64.is_nan e.2 = false) (entries A) ->
  Forall (fun x => F64.is_nan x = false)
         (transformed precision binarize <$> vals_of A).
Proof.
  intros Hnan. unfold vals_of. rewrite <- list_fmap_compose. apply Forall_fmap.
  eapply Forall_impl; [exact Hnan|]. intros e He. simpl.
  rewrite is_nan_transformed. exact He.
Qed.

Lemma vals_of_nonempty (A : SparseMatrix) :
  entries A <> [] -> transformed precision binarize <$> vals_of A <> [].
Proof. unfold vals_of. destruct (entries A); [congruence|discriminate]. Qed.

End ColourRange.

(** X4. For a matrix with at least one entry and no NaN among its values
    the colour range is well formed: [maxval] is a number, it is at least
    [minval = 0], and every transformed value lies between the two. *)
Theorem color_range_is_well_formed
        (precision : float) (binarize : bool) (A : SparseMatrix) :
  entries A <> [] ->
  Forall (fun e => F64.is_nan e.2 = false) (entries A) ->
  exists vals_all maxval,
    color_scale precision binarize A = Ok (vals_all, 0, maxval)
    /\ F64.is_nan maxval = false
    /\ F64.leb F64.zero maxval = true
    /\ Forall (fun x => F64.leb F64.zero x = true /\ F64.leb x maxval = true)
              vals_all.
Proof.
  intros Hne Hnan.
  pose proof (transformed_values_not_nan precision binarize A Hnan) as Hvals.
  destruct (py_max_spec _ (vals_of_nonempty precision binarize A Hne))
    as (maxval & Hmax & Hin & _).
  pose proof (py_max_greatest _ _ Hmax Hvals) as Hup.
  assert (Hlow : Forall (fun x => F64.leb F64.zero x = true)
                        (transformed precision binarize <$> vals_of A)).
  { unfold vals_of. rewrite <- list_fmap_compose. apply Forall_fmap.
    eapply Forall_impl; [exact Hnan|]. intros e He. simpl.
    apply transformed_nonneg, He. }
  exists (transformed precision binarize <$> vals_of A), maxval.
  split; [rewrite color_scale_eq, Hmax; reflexivity|].
  rewrite Forall_forall in Hvals, Hlow, Hup.
  split; [apply Hvals, Hin|]. split; [apply Hlow, Hin|].
  apply Forall_forall. intros x Hx. split; [apply Hlow, Hx|apply Hup, Hx].
Qed.

Lemma color_range_is_well_formed_witness :
  (entries Samples.diagonal <> []
   /\ Forall (fun e => F64.is_nan e.2 = false) (entries Samples.diagonal))
  /\ exists vals_all maxval,
      color_scale F64.one true Samples.diagonal = Ok (vals_all, 0, maxval)
      /\ F64.is_nan maxval = false
      /\ F64.leb F64.zero maxval = true
      /\ Forall (fun x => F64.leb F64.zero x = true /\ F64.leb x maxval = true)
                vals_all.
Proof.
  assert (Hne : entries Samples.diagonal <> []) by discriminate.
  assert (Hnan : Forall (fun e => F64.is_nan e.2 = false) (entries Samples.diagonal))
    by (repeat constructor).
  split; [split; assumption|].
  exact (color_range_is_well_formed F64.one true Samples.diagonal Hne Hnan).
Defined.

(** X5. Binarizing with a threshold of at most [1.0]: when no value is NaN
    and some entry exceeds the threshold, no transformed value is above
    [1.0] and [maxval] is exactly [1.0]. *)
Theorem binarized_scale_tops_at_one
        (precision : float) (A : SparseMatrix) (r c : Z) (v : float) :
  F64.leb precision F64.one = true ->
  Forall (fun e => F64.is_nan e.2 = false) (entries A) ->
  (r, c, v) ∈ entries A ->
  F64.gtb (F64.abs v) precision = true ->
  exists vals_all,
    color_scale precision true A = Ok (vals_all, 0, F64.one)
    /\ Forall (fun x => F64.leb x F64.one = true) vals_all.
Proof.
  intros Hp Hnan Hin Hv.
  assert (Hne : entries A <> []).
  { intros E. rewrite E in Hin. apply elem_of_nil in Hin. contradiction. }
  pose proof (transformed_values_not_nan precision true A Hnan) as Hvals.
  destruct (py_max_spec _ (vals_of_nonempty precision true A Hne))
    as (maxval & Hmax & Hmin & _).
  pose proof (py_max_greatest _ _ Hmax Hvals) as Hup.
  assert (Hpn : F64.is_nan precision = false).
  { destruct precision; try reflexivity. discriminate. }
  assert (Hcap : Forall (fun x => F64.leb x F64.one = true)
                        (transformed precision true <$> vals_of A)).
  { unfold vals_of. rewrite <- list_fmap_compose. apply Forall_fmap.
    eapply Forall_impl; [exact Hnan|]. intros e He. simpl.
    unfold transformed. cbn [andb].
    destruct (F64.gtb (F64.abs e.2) precision) eqn:Hg; [reflexivity|].
    apply (F64Order.leb_trans _ precision); [|exact Hp].
    apply F64Facts.not_gtb_leb; [|exact Hpn|exact Hg].
    rewrite F64Facts.is_nan_abs. exact He. }
  assert (Hone : F64.one ∈ transformed precision true <$> vals_of A).
  { unfold vals_of. rewrite <- list_fmap_compose.
    apply list_elem_of_fmap. exists (r, c, v). split; [|exact Hin].
    simpl. unfold transformed. rewrite Hv. reflexivity. }
  assert (Heq : maxval = F64.one).
  { rewrite Forall_forall in Hup, Hcap.
    apply F64Order.abs_fixed_Eq; [|reflexivity|].
    - apply list_elem_of_fmap in Hmin as (w & -> & _).
      apply transformed_abs_fixed.
    - apply F64Order.leb_antisym; [apply Hcap, Hmin|apply Hup, Hone]. }
  subst maxval.
  exists (transformed precision true <$> vals_of A).
  split; [rewrite color_scale_eq, Hmax; reflexivity|exact Hcap].
Qed.

Lemma binarized_scale_tops_at_one_witness :
  (F64.leb Samples.half F64.one = true
   /\ Forall (fun e => F64.is_nan e.2 = false) (entries MoreSamples.scattered)
   /\ (1, 0, Samples.minus_three) ∈ entries MoreSamples.scattered
   /\ F64.gtb (F64.abs Samples.minus_three) Samples.half = true)
  /\ exists vals_all,
      color_scale Samples.half true MoreSamples.scattered
      = Ok (vals_all, 0, F64.one)
      /\ Forall (fun x => F64.leb x F64.one = true) vals_all.
Proof.
  assert (Hp : F64.leb Samples.half F64.one = true) by reflexivity.
  assert (Hnan : Forall (fun e => F64.is_nan e.2 = false)
                        (entries MoreSamples.scattered))
    by (repeat constructor).
  assert (Hin : (1, 0, Samples.minus_three) ∈ entries MoreSamples.scattered)
    by (right; left).
  assert (Hv : F64.gtb (F64.abs Samples.minus_three) Samples.half = true)
    by reflexivity.
  split; [repeat (split; [assumption|]); assumption|].
  exact (binarized_scale_tops_at_one Samples.half MoreSamples.scattered
                                     1 0 Samples.minus_three Hp Hnan Hin Hv).
Defined.

(** X6. When no stored value is NaN, [maxval] does not depend on the order
    in which the entries are stored: two matrices holding the same entries in
    different orders reach line 31 with the same [maxval]. *)
Theorem maxval_ignores_storage_order
        (precision : float) (binarize : bool) (A A' : SparseMatrix) :
  entries A ≡ₚ entries A' ->
  entries A <> [] ->
  Forall (fun e => F64.is_nan e.2 = false) (entries A) ->
  exists vals_all vals_all' maxval,
    color_scale precision binarize A = Ok (vals_all, 0, maxval)
    /\ color_scale precision binarize A' = Ok (vals_all', 0, maxval)
    /\ vals_all ≡ₚ vals_all'.
Proof.
  intros Hperm Hne Hnan.
  assert (Hne' : entries A' <> []).
  { intros E. rewrite E in Hperm. apply Permutation_nil_r in Hperm. congruence. }
  assert (Hnan' : Forall (fun e => F64.is_nan e.2 = false) (entries A'))
    by (rewrite <- Hperm; exact Hnan).
  assert (Hvperm : transformed precision binarize <$> vals_of A
                   ≡ₚ transformed precision binarize <$> vals_of A')
    by (unfold vals_of; rewrite Hperm; reflexivity).
  destruct (py_max_spec _ (vals_of_nonempty precision binarize A Hne))
    as (m & Hmax & Hin & _).
  destruct (py_max_spec _ (vals_of_nonempty precision binarize A' Hne'))
    as (m' & Hmax' & Hin' & _).
  pose proof (py_max_greatest _ _ Hmax
                (transformed_values_not_nan precision binarize A Hnan)) as Hup.
  pose proof (py_max_greatest _ _ Hmax'
                (transformed_values_not_nan precision binarize A' Hnan')) as Hup'.
  rewrite Forall_forall in Hup, Hup'.
  assert (Heq : m = m').
  { apply F64Order.abs_fixed_Eq.
    - apply list_elem_of_fmap in Hin as (w & -> & _). apply transformed_abs_fixed.
    - apply list_elem_of_fmap in Hin' as (w & -> & _). apply transformed_abs_fixed.
    - apply F64Order.leb_antisym.
      + apply Hup'. rewrite <- Hvperm. exact Hin.
      + apply Hup. rewrite Hvperm. exact Hin'. }
  subst m'.
  exists (transformed precision binarize <$> vals_of A),
         (transformed precision binarize <$> vals_of A'), m.
  split; [rewrite color_scale_eq, Hmax; reflexivity|].
  split; [rewrite color_scale_eq, Hmax'; reflexivity|exact Hvperm].
Qed.

Lemma maxval_ignores_storage_order_witness :
  (entries Samples.diagonal ≡ₚ entries MoreSamples.diagonal_swapped
   /\ entries Samples.diagonal <> []
   /\ Forall (fun e => F64.is_nan e.2 = false) (entries Samples.diagonal))
  /\ exists vals_all vals_all' maxval,
      color_scale F64.minus_one false Samples.diagonal = Ok (vals_all, 0, maxval)
      /\ color_scale F64.minus_one false MoreSamples.diagonal_swapped
         = Ok (vals_all', 0, maxval)
      /\ vals_all ≡ₚ vals_all'.
Proof.
  assert (Hperm : entries Samples.diagonal ≡ₚ entries MoreSamples.diagonal_swapped)
    by apply perm_swap.
  assert (Hne : entries Samples.diagonal <> []) by discriminate.
  assert (Hnan : Forall (fun e => F64.is_nan e.2 = false) (entries Samples.diagonal))
    by (repeat constructor).
  split; [split; [exact Hperm|split; [exact Hne|exact Hnan]]|].
  exact (maxval_ignores_storage_order F64.minus_one false Samples.diagonal
                                      MoreSamples.diagonal_swapped Hperm Hne Hnan).
Defined.

(** With a NaN among the values the order does matter: [max] keeps a NaN it
    meets first and skips one it meets later. *)
Example maxval_with_nan_depends_on_order :
  py_max [F64.nan; F64.one] = Ok F64.nan
  /\ py_max [F64.one; F64.nan] = Ok F64.one.
Proof. split; reflexivity. Qed.

(** ** Thresholds at the ends of the scale *)

(** X7. Any negative threshold, not only the default [-1], makes binarizing
    unconditional: with [0 > precision] and [binarize] true every stored
    value that is not NaN is rendered as [1.0], a stored zero included. *)
Theorem negative_precision_binarizes_numbers
        (precision : float) (A : SparseMatrix) (i : nat) (r c : Z) (v : float) :
  F64.gtb F64.zero precision = true ->
  entries A !! i = Some (r, c, v) ->
  F64.is_nan v = false ->
  exists vals_all,
    transformed_values precision true A = Ok vals_all
    /\ vals_all !! i = Some F64.one.
Proof.
  intros Hp Hi Hv.
  assert (Hgt : F64.gtb (F64.abs v) precision = true).
  { destruct precision as [s|[]| |[] m e], v; simpl in *;
      try discriminate; reflexivity. }
  exists (transformed precision true <$> vals_of A).
  split; [apply transformed_values_eq|].
  unfold vals_of. rewrite !list_lookup_fmap, Hi. simpl.
  unfold transformed. rewrite Hgt. reflexivity.
Qed.

Lemma negative_precision_binarizes_numbers_witness :
  (F64.gtb F64.zero (SFopp Samples.half) = true
   /\ entries Samples.single_half !! 0%nat = Some (0, 0, Samples.half)
   /\ F64.is_nan Samples.half = false)
  /\ exists vals_all,
      transformed_values (SFopp Samples.half) true Samples.single_half = Ok vals_all
      /\ vals_all !! 0%nat = Some F64.one.
Proof.
  split; [split; [reflexivity|split; reflexivity]|].
  apply (negative_precision_binarizes_numbers
           (SFopp Samples.half) Samples.single_half 0 0 0 Samples.half);
    reflexivity.
Defined.

(** X8. A threshold that nothing can exceed switches binarizing off: with
    [precision] NaN or plus infinity the outcome of the call with [binarize]
    true is the outcome with [binarize] false, for every matrix. *)
Theorem unreachable_precision_disables_binarize
        (precision : float) (A : SparseMatrix) :
  precision = F64.nan \/ precision = S754_infinity false ->
  transformed_values precision true A = transformed_values precision false A
  /\ ShowPattern precision true A = ShowPattern precision false A.
Proof.
  intros Hp.
  assert (Hv : forall v, transformed precision true v = transformed precision false v).
  { intros v. unfold transformed. cbn [andb].
    destruct Hp as [-> | ->]; destruct v as [s|[]| |[] m e]; reflexivity. }
  assert (Hvals : transformed precision true <$> vals_of A
                  = transformed precision false <$> vals_of A)
    by (apply list_fmap_ext; intros _ v _; apply Hv).
  rewrite !ShowPattern_eq, !color_scale_eq, !transformed_values_eq, Hvals.
  split; reflexivity.
Qed.

Lemma unreachable_precision_disables_binarize_witness :
  (F64.nan = F64.nan \/ F64.nan = S754_infinity false)
  /\ transformed_values F64.nan true Samples.diagonal
     = transformed_values F64.nan false Samples.diagonal
  /\ ShowPattern F64.nan true Samples.diagonal
     = ShowPattern F64.nan false Samples.diagonal.
Proof.
  assert (H : F64.nan = F64.nan \/ F64.nan = S754_infinity false)
    by (left; reflexivity).
  split; [exact H|].
  exact (unreachable_precision_disables_binarize F64.nan Samples.diagonal H).
Defined.

(** ** How a call can end *)

Section Outcomes.

Variable precision : float.
Variable binarize : bool.

(** With arrays of one length, the construction can only fail on an index. *)
Lemma csr_matrix_Raise (data : list float) (row col : list Z) (shape : nat * nat)
      (e : exn) :
  length row = length data -> length col = length data ->
  csr_matrix data row col shape = Raise e ->
  e = RowIndexExceeds \/ e = ColumnIndexExceeds
  \/ e = NegativeRowIndex \/ e = NegativeColumnIndex.
Proof.
  intros Hr Hc. unfold csr_matrix.
  rewrite Hr, Hc, Nat.eqb_refl. cbn [andb negb].
  destruct (0 <? length data)%nat; [|discriminate].
  destruct (Z.of_nat shape.1 <=? np_max row); [intros [= <-]; tauto|].
  destruct (Z.of_nat shape.2 <=? np_max col); [intros [= <-]; tauto|].
  destruct (np_min row <? 0); [intros [= <-]; tauto|].
  destruct (np_min col <? 0); [intros [= <-]; tauto|discriminate].
Qed.

Lemma within_shape_views (A : SparseMatrix) :
  within_shape A
  <-> Forall (fun r => 0 <= r < Z.of_nat (height A)) (rows_of A)
      /\ Forall (fun c => 0 <= c < Z.of_nat (width A)) (cols_of A).
Proof.
  unfold within_shape, rows_of, cols_of.
  rewrite !Forall_fmap, Forall_and. reflexivity.
Qed.

(** The three ways a call can end. *)
Lemma ShowPattern_cases (A : SparseMatrix) :
  (entries A = []
   /\ ShowPattern precision binarize A = Raise MaxEmptySequence)
  \/ (entries A <> [] /\ within_shape A
      /\ exists trace, ShowPattern precision binarize A = Ok trace)
  \/ (entries A <> [] /\ ~ within_shape A
      /\ exists e, ShowPattern precision binarize A = Raise e
                   /\ (e = RowIndexExceeds \/ e = ColumnIndexExceeds
                       \/ e = NegativeRowIndex \/ e = NegativeColumnIndex)).
Proof.
  destruct (entries A) as [|e0 l] eqn:Hent.
  { left. split; [reflexivity|].
    rewrite ShowPattern_eq, color_scale_eq. unfold vals_of. rewrite Hent.
    reflexivity. }
  right.
  assert (Hne : entries A <> []) by (rewrite Hent; discriminate).
  assert (Hr : length (rows_of A)
               = length (transformed precision binarize <$> vals_of A))
    by (unfold rows_of, vals_of; rewrite !length_fmap; reflexivity).
  assert (Hc : length (cols_of A)
               = length (transformed precision binarize <$> vals_of A))
    by (unfold cols_of, vals_of; rewrite !length_fmap; reflexivity).
  destruct (csr_matrix (transformed precision binarize <$> vals_of A)
                       (rows_of A) (cols_of A) (height A, width A))
    as [M|e] eqn:Hcsr.
  - left. split; [discriminate|].
    apply csr_matrix_Ok in Hcsr as (_ & _ & _ & Hrow & Hcol).
    assert (Hin : within_shape A) by (apply within_shape_views; split; assumption).
    split; [exact Hin|]. apply ShowPattern_succeeds; assumption.
  - right. split; [discriminate|]. split.
    + intros Hin. apply within_shape_views in Hin as [Hrow Hcol].
      rewrite (csr_matrix_in_range _ _ _ (height A, width A) Hr Hc Hrow Hcol)
        in Hcsr.
      discriminate.
    + exists e. split; [|exact (csr_matrix_Raise _ _ _ _ _ Hr Hc Hcsr)].
      rewrite ShowPattern_eq, color_scale_eq.
      destruct (py_max_spec _ (vals_of_nonempty precision binarize A Hne))
        as (maxval & -> & _).
      cbn [mbind result_bind]. rewrite Hcsr. reflexivity.
Qed.

End Outcomes.

(** X9. The exceptions a call can end with.  It ends with the exception of
    [max] on an empty sequence exactly when the matrix has no stored entry;
    it never ends with an index error of the loop, and never divides by zero
    at line 33, since with a width of 0 an earlier line has failed already
    (the index checks being those of the modelled [csr_matrix]). *)
Theorem exceptions_of_a_call
        (precision : float) (binarize : bool) (A : SparseMatrix) :
  (ShowPattern precision binarize A = Raise MaxEmptySequence <-> entries A = [])
  /\ ShowPattern precision binarize A <> Raise IndexError
  /\ ShowPattern precision binarize A <> Raise LengthMismatch
  /\ ShowPattern precision binarize A <> Raise ZeroDivisionError.
Proof.
  destruct (ShowPattern_cases precision binarize A)
    as [[Hnil H] | [(Hne & _ & trace & H) | (Hne & _ & e & H & He)]];
    rewrite H.
  - repeat split; intros; congruence.
  - repeat split; intros; congruence.
  - repeat split; intros; try congruence;
      destruct He as [-> | [-> | [-> | ->]]]; congruence.
Qed.

(** X10. When a call completes: exactly when the matrix has at least one
    stored entry and every row and column index lies within the declared
    shape (the index checks being those of the modelled [csr_matrix]);
    neither the values nor [precision] nor [binarize] play a part. *)
Theorem call_completes_iff
        (precision : float) (binarize : bool) (A : SparseMatrix) :
  (exists trace, ShowPattern precision binarize A = Ok trace)
  <-> entries A <> [] /\ within_shape A.
Proof.
  destruct (ShowPattern_cases precision binarize A)
    as [[Hnil H] | [(Hne & Hin & trace & H) | (Hne & Hout & e & H & _)]];
    rewrite H.
  - split; [intros [trace Ht]; discriminate|intros [Hne _]; congruence].
  - split; [intros _; split; assumption|intros _; eexists; reflexivity].
  - split; [intros [trace Ht]; discriminate|intros [_ Hin]; contradiction].
Qed.

(** ** Matrices that store each position once *)

Section Unique.

Lemma stored_at_elem (A : SparseMatrix) (i j : nat) (v : float) :
  v ∈ stored_at A i j <-> (Z.of_nat i, Z.of_nat j, v) ∈ entries A.
Proof.
  unfold stored_at. rewrite list_elem_of_omap. split.
  - intros ([[r c] w] & Hin & Hf). simpl in Hf.
    destruct (Z.eqb_spec r (Z.of_nat i)) as [->|]; [|discriminate].
    destruct (Z.eqb_spec c (Z.of_nat j)) as [->|]; [|discriminate].
    injection Hf as ->. exact Hin.
  - intros Hin. eexists. split; [exact Hin|]. simpl.
    rewrite !Z.eqb_refl. reflexivity.
Qed.

(** Without repeated positions, at most one value is stored for a cell. *)
Lemma stored_at_NoDup (A : SparseMatrix) (i j : nat) :
  NoDup (positions A) ->
  stored_at A i j = [] \/ exists v, stored_at A i j = [v].
Proof.
  unfold positions, stored_at.
  induction (entries A) as [|[[r c] w] l IH]; intros Hnd; [left; reflexivity|].
  cbn [fmap list_fmap] in Hnd. apply NoDup_cons in Hnd as [Hnotin Hnd].
  specialize (IH Hnd). cbn [omap list_omap]. simpl in *.
  destruct (Z.eqb_spec r (Z.of_nat i)) as [->|];
    [destruct (Z.eqb_spec c (Z.of_nat j)) as [->|]|]; simpl; try exact IH.
  right. exists w. f_equal.
  destruct IH as [IH | [v IH]]; [exact IH|]. exfalso. apply Hnotin.
  assert (Hv : v ∈ omap
                 (fun e : Z * Z * float =>
                    if (e.1.1 =? Z.of_nat i) && (e.1.2 =? Z.of_nat j)
                    then Some e.2 else None) l)
    by (rewrite IH; left).
  apply list_elem_of_omap in Hv as ([[r' c'] w'] & Hin & Hf). simpl in Hf.
  destruct (Z.eqb_spec r' (Z.of_nat i)) as [->|]; [|discriminate].
  destruct (Z.eqb_spec c' (Z.of_nat j)) as [->|]; [|discriminate].
  apply (list_elem_of_fmap_2 (fun e : Z * Z * float => e.1) _ _ Hin).
Qed.

Lemma stored_at_unique (A : SparseMatrix) (i j : nat) (v : float) :
  NoDup (positions A) ->
  (Z.of_nat i, Z.of_nat j, v) ∈ entries A ->
  stored_at A i j = [v].
Proof.
  intros Hnd Hin. apply stored_at_elem in Hin.
  destruct (stored_at_NoDup A i j Hnd) as [E | [w E]]; rewrite E in Hin |- *.
  - apply elem_of_nil in Hin. contradiction.
  - apply list_elem_of_singleton in Hin as ->. reflexivity.
Qed.

End Unique.

(** X11. When no position is stored twice, the image shows each stored entry
    by its transformed value: the cell at the entry's row and column holds
    exactly the value the loop left for it (the array being built as the
    modelled [csr_matrix] and [todense] build it). *)
Theorem cell_shows_transformed_value
        (precision : float) (binarize : bool) (A : SparseMatrix)
        (trace : list plt_call) (k : nat) (r c : Z) (v : float) :
  ShowPattern precision binarize A = Ok trace ->
  NoDup (positions A) ->
  entries A !! k = Some (r, c, v) ->
  exists figsize args,
    trace = [plt_figure figsize; plt_imshow args; plt_show]
    /\ at_position (im_data args) (Z.to_nat r) (Z.to_nat c)
       = Some (transformed precision binarize v).
Proof.
  intros H Hnd Hk.
  apply ShowPattern_Ok_inv in H as (maxval & _ & Hcsr & ->).
  apply csr_matrix_Ok in Hcsr as (_ & _ & _ & Hrow & Hcol). cbn [fst snd] in *.
  assert (Hr : 0 <= r < Z.of_nat (height A)).
  { eapply (Forall_lookup_1 _ _ k r Hrow).
    unfold rows_of. rewrite list_lookup_fmap, Hk. reflexivity. }
  assert (Hc : 0 <= c < Z.of_nat (width A)).
  { eapply (Forall_lookup_1 _ _ k c Hcol).
    unfold cols_of. rewrite list_lookup_fmap, Hk. reflexivity. }
  eexists _, _. split; [reflexivity|]. cbn [im_data].
  rewrite todense_at_position by (cbn [sp_shape fst snd]; lia).
  unfold cell. rewrite entries_at_transformed.
  rewrite (stored_at_unique A _ _ v Hnd).
  - cbn [fmap list_fmap]. rewrite dense_cell_single. reflexivity.
  - rewrite !Z2Nat.id by lia. apply (list_elem_of_lookup_2 _ k). exact Hk.
Qed.

Lemma cell_shows_transformed_value_witness :
  exists trace,
    (ShowPattern F64.one true MoreSamples.scattered = Ok trace
     /\ NoDup (positions MoreSamples.scattered)
     /\ entries MoreSamples.scattered !! 1%nat = Some (1, 0, Samples.minus_three))
    /\ exists figsize args,
        trace = [plt_figure figsize; plt_imshow args; plt_show]
        /\ at_position (im_data args) (Z.to_nat 1) (Z.to_nat 0)
           = Some (transformed F64.one true Samples.minus_three).
Proof.
  eexists.
  assert (Hnd : NoDup (positions MoreSamples.scattered)).
  { apply (bool_decide_unpack _). vm_compute. reflexivity. }
  split.
  - split; [vm_compute; reflexivity|]. split; [exact Hnd|reflexivity].
  - apply (cell_shows_transformed_value F64.one true MoreSamples.scattered
                                        _ 1 1 0 Samples.minus_three);
      [vm_compute; reflexivity|exact Hnd|reflexivity].
Defined.

(** X12. When no position is stored twice and no value is NaN, the colour
    range covers the image: every cell of the array shown lies between
    [vmin = 0] and [vmax = maxval] (the array being built as the modelled
    [csr_matrix] and [todense] build it).  With a position stored twice the
    sum in its cell can exceed [maxval], as in [scenario_duplicates]. *)
Theorem image_within_color_range
        (precision : float) (binarize : bool) (A : SparseMatrix)
        (trace : list plt_call) :
  ShowPattern precision binarize A = Ok trace ->
  NoDup (positions A) ->
  Forall (fun e => F64.is_nan e.2 = false) (entries A) ->
  exists figsize args,
    trace = [plt_figure figsize; plt_imshow args; plt_show]
    /\ im_vmin args = 0
    /\ forall i j : nat,
        (i < height A)%nat -> (j < width A)%nat ->
        exists x,
          at_position (im_data args) i j = Some x
          /\ F64.leb F64.zero x = true
          /\ F64.leb x (im_vmax args) = true.
Proof.
  intros H Hnd Hnan.
  apply ShowPattern_Ok_inv in H as (maxval & Hmax & _ & ->).
  pose proof (py_max_greatest _ _ Hmax
                (transformed_values_not_nan precision binarize A Hnan)) as Hup.
  rewrite Forall_forall in Hup. rewrite Forall_forall in Hnan.
  assert (Hzero : F64.leb F64.zero maxval = true).
  { destruct (py_max_spec (transformed precision binarize <$> vals_of A))
      as (m & Hm & Hin & _).
    { intros E. rewrite E in Hmax. discriminate. }
    rewrite Hmax in Hm. injection Hm as <-.
    unfold vals_of in Hin. rewrite <- list_fmap_compose in Hin.
    apply list_elem_of_fmap in Hin as (e & -> & He). simpl.
    apply transformed_nonneg, Hnan, He. }
  eexists _, _. split; [reflexivity|]. split; [reflexivity|].
  intros i j Hi Hj. cbn [im_data im_vmax].
  rewrite todense_at_position by assumption.
  unfold cell. rewrite entries_at_transformed.
  destruct (stored_at_NoDup A i j Hnd) as [E | [v E]]; rewrite E.
  - exists F64.zero. split; [reflexivity|]. split; [reflexivity|exact Hzero].
  - assert (Hin : (Z.of_nat i, Z.of_nat j, v) ∈ entries A)
      by (apply stored_at_elem; rewrite E; left).
    exists (transformed precision binarize v). cbn [fmap list_fmap].
    split; [rewrite dense_cell_single; reflexivity|]. split.
    + apply transformed_nonneg. apply (Hnan _ Hin).
    + apply Hup. unfold vals_of. rewrite <- list_fmap_compose.
      apply list_elem_of_fmap. eexists. split; [|exact Hin]. reflexivity.
Qed.

Lemma image_within_color_range_witness :
  exists trace,
    (ShowPattern F64.minus_one false MoreSamples.scattered = Ok trace
     /\ NoDup (positions MoreSamples.scattered)
     /\ Forall (fun e => F64.is_nan e.2 = false) (entries MoreSamples.scattered))
    /\ exists figsize args,
        trace = [plt_figure figsize; plt_imshow args; plt_show]
        /\ im_vmin args = 0
        /\ forall i j : nat,
            (i < height MoreSamples.scattered)%nat ->
            (j < width MoreSamples.scattered)%nat ->
            exists x,
              at_position (im_data args) i j = Some x
              /\ F64.leb F64.zero x = true
              /\ F64.leb x (im_vmax args) = true.
Proof.
  eexists.
  assert (Hnd : NoDup (positions MoreSamples.scattered)).
  { apply (bool_decide_unpack _). vm_compute. reflexivity. }
  assert (Hnan : Forall (fun e => F64.is_nan e.2 = false)
                        (entries MoreSamples.scattered))
    by (repeat constructor).
  split.
  - split; [vm_compute; reflexivity|]. split; [exact Hnd|exact Hnan].
  - apply (image_within_color_range F64.minus_one false MoreSamples.scattered);
      [vm_compute; reflexivity|exact Hnd|exact Hnan].
Defined.
